(** * Chicago Taxi fare app: a shallow embedding of [app.py]

    The Streamlit script [app.py] loads a pickled fare model and two
    aggregate tables, builds one input dictionary from a form, asks the
    model for a fare and shows it next to the historical average.

    The file has these parts.
    - [float64], [exn], [result]: the values and errors the script and the
      model exchange.
    - [Core], [Binary64]: the fare model (feature encoder and online
      regressor).  Its code is not part of [app.py]; it is modelled from
      the specification and every such definition says so.  [Core] is
      the prediction path over exact rationals and stands for the model
      object in runs of the script; [Binary64] is the model on floats.
    - [Form], [App]: the script, that is resource loading, the calculator
      tab and the dashboard tab, as a writer of user-interface events
      with exceptions and [st.stop].  The model object is a parameter.
    - [Scenario]: concrete trips, tables and file systems.
    - [Binary64Facts], [AppFacts], [ScriptFacts]: what is proved. *)

From Stdlib Require Import ZArith NArith QArith Qabs Qround Lqa Lia List String Bool.
From Stdlib Require Import SpecFloat.
Import ListNotations.

Local Open Scope Q_scope.

(* ================================================================= *)
(** ** Values and errors *)

(** A Python [float].  Finite values are idealised as exact rationals:
    rounding and overflow are outside this model.  The three non-finite
    values are kept because a caller can hand them to the model. *)
Inductive float64 : Type :=
| Fin (q : Q)
| Inf (negative : bool)
| NaN.

Definition is_finite (f : float64) : bool :=
  match f with Fin _ => true | _ => false end.

(** [float(z)] for a Python [int]. *)
Definition float_of_int (z : Z) : float64 := Fin (inject_Z z).

(** [a - b] on floats. *)
Definition fsub (a b : float64) : float64 :=
  match a, b with
  | NaN, _ | _, NaN => NaN
  | Fin x, Fin y => Fin (x - y)
  | Fin _, Inf s => Inf (negb s)
  | Inf s, Fin _ => Inf s
  | Inf s, Inf t => if Bool.eqb s t then NaN else Inf s
  end.

(** The exceptions that occur in the script and in the model. *)
Inductive exn : Type :=
| FileNotFoundError
| KeyError (key : string)
| IndexError
| AttributeError (attr : string)
| MalformedInput
| ValueError
| ZeroDivisionError
| OtherError (what : string).

(** A computation that returns or raises. *)
Inductive result (A : Type) : Type :=
| Ok (a : A)
| Raise (e : exn).
Arguments Ok {A} a.
Arguments Raise {A} e.

Definition rbind {A B : Type} (r : result A) (k : A -> result B) : result B :=
  match r with
  | Ok a => k a
  | Raise e => Raise e
  end.

Declare Scope result_scope.
Delimit Scope result_scope with result.
Notation "x <- r ;; k" := (rbind r (fun x => k))
  (at level 61, r at next level, right associativity) : result_scope.

(* ================================================================= *)
(** ** The four trip fields *)

(** The input dictionary has exactly the keys ["km"], ["min"], ["hour"]
    and ["day"]; the same four names index the encoder statistics, the
    encoded vector and the weights. *)
Record Fields (A : Type) : Type := mkFields {
  km : A;
  min : A;
  hour : A;
  day : A
}.
Arguments mkFields {A} _ _ _ _.
Arguments km {A} _.
Arguments min {A} _.
Arguments hour {A} _.
Arguments day {A} _.

Definition fields_map {A B : Type} (f : A -> B) (x : Fields A) : Fields B :=
  mkFields (f (km x)) (f (min x)) (f (hour x)) (f (day x)).

Definition fields_zip {A B C : Type} (f : A -> B -> C)
  (x : Fields A) (y : Fields B) : Fields C :=
  mkFields (f (km x) (km y)) (f (min x) (min y))
           (f (hour x) (hour y)) (f (day x) (day y)).

Definition fields_all {A : Type} (p : A -> bool) (x : Fields A) : bool :=
  p (km x) && p (min x) && p (hour x) && p (day x).

Definition fields_sum (x : Fields Q) : Q :=
  km x + min x + hour x + day x.

(** Collects four fallible field computations, first failure wins. *)
Definition fields_sequence {A : Type} (x : Fields (result A)) : result (Fields A) :=
  (a <- km x ;; b <- min x ;; c <- hour x ;; d <- day x ;;
   Ok (mkFields a b c d))%result.

(** [RawFeatures]: the dictionary [x_input] of the script. *)
Definition RawFeatures : Type := Fields float64.

(** [EncodedFeatures]: one standardised value per field. *)
Definition EncodedFeatures : Type := Fields Q.

(* ================================================================= *)
(** ** The fare model *)

(** [app.py] unpickles the model and calls its [predict_one]; the class
    of the model, its encoder and its regressor are not in [app.py].
    This module reads the prediction path of the specification over
    exact rationals.  It serves as the model object in the runs of the
    script below; what is proved about the numbers the model computes
    is proved on [Binary64], where they are floats. *)
Module Core.

(** Modelled from the spec: the range test of the missing model on one
    field, after the invariant of RawFeatures (section 3): finite and
    between the bounds. *)
Definition in_range (lo hi : Q) (f : float64) : bool :=
  match f with
  | Fin q => Qle_bool lo q && Qle_bool q hi
  | _ => false
  end.

(** Modelled from the spec: the input check of the missing model, the
    invariant of RawFeatures (section 3): every field finite, hour in
    [0,23], day in [0,6]. *)
Definition valid_raw (r : RawFeatures) : bool :=
  is_finite (km r) && is_finite (min r)
  && in_range 0 23 (hour r) && in_range 0 6 (day r).

(** Modelled from the spec: the value of a field that passed the input
    check of the missing model. *)
Definition finite_part (f : float64) : Q :=
  match f with Fin q => q | _ => 0 end.

(** Modelled from the spec: the MalformedInput policy of the missing
    model (section 7), reject before the encoder sees the value. *)
Definition validate (r : RawFeatures) : result (Fields Q) :=
  if valid_raw r then Ok (fields_map finite_part r) else Raise MalformedInput.

(** Modelled from the spec: EncoderState of the missing model
    (section 3), per field the count and the running mean, with the sum
    of squared deviations [m2] of Welford's method as the sufficient
    statistic for the variance. *)
Record FieldStats : Type := mkStats {
  count : N;
  mean : Q;
  m2 : Q
}.

(** Modelled from the spec: the statistics of the four fields of the
    missing model (section 3). *)
Definition EncoderState : Type := Fields FieldStats.

(** Modelled from the spec: ModelWeights of the missing model
    (section 3), a weight per field and an intercept. *)
Record ModelWeights : Type := mkWeights {
  coef : Fields Q;
  intercept : Q
}.

(** Modelled from the spec: ModelArtifact (section 3), the state of the
    missing model: what the pickle file is meant to hold. *)
Record ModelArtifact : Type := mkArtifact {
  encoder : EncoderState;
  weights : ModelWeights
}.

(** Modelled from the spec: the statistics of a field of the missing
    model before any observation (section 3). *)
Definition empty_stats : FieldStats := mkStats 0%N 0 0.

(** Modelled from the spec: the missing model right after creation,
    counts 0 and all weights and the intercept 0 (sections 3 and 4.2). *)
Definition fresh : ModelArtifact :=
  mkArtifact
    (mkFields empty_stats empty_stats empty_stats empty_stats)
    (mkWeights (mkFields 0 0 0 0) 0).

Definition Qcount (s : FieldStats) : Q := inject_Z (Z.of_N (count s)).

(** Modelled from the spec: the running variance of the missing encoder
    (section 4.1), [m2 / count], and 0 while nothing was observed. *)
Definition variance (s : FieldStats) : Q :=
  if (count s =? 0)%N then 0 else m2 s / Qcount s.

Section Numerics.

(** The small constant of [transform] and the floating-point square
    root.  The spec fixes neither, both are parameters of the model. *)
Variable eps : Q.
Variable sqrt : Q -> Q.

(** Modelled from the spec: [transform] of the missing encoder on one
    field (section 4.1), [(value - mean) / sqrt (variance + eps)], the
    raw value while the count is 0.  A square root of a negative number
    and a division by zero raise, as they do in Python. *)
Definition transform_field (s : FieldStats) (v : Q) : result Q :=
  if (count s =? 0)%N then Ok v
  else
    let r := variance s + eps in
    if negb (Qle_bool 0 r) then Raise ValueError
    else
      let d := sqrt r in
      if Qeq_bool d 0 then Raise ZeroDivisionError
      else Ok ((v - mean s) / d).

(** Modelled from the spec: [transform] of the missing encoder
    (section 4.1), field by field. *)
Definition transform (st : EncoderState) (x : Fields Q) : result EncodedFeatures :=
  fields_sequence (fields_zip transform_field st x).

(** Modelled from the spec: [predict] of the missing regressor
    (section 4.2), dot product plus intercept. *)
Definition predict (w : ModelWeights) (e : EncodedFeatures) : Q :=
  fields_sum (fields_zip Qmult (coef w) e) + intercept w.

(** Modelled from the spec: the request [Predict] of the missing model
    (sections 2 and 6) with the input check of section 7: validate,
    encode, predict.  The state is only read.  [app.py] has no such
    check of its own. *)
Definition Predict (m : ModelArtifact) (r : RawFeatures) : result float64 :=
  (x <- validate r ;;
   e <- transform (encoder m) x ;;
   Ok (Fin (predict (weights m) e)))%result.

End Numerics.

(** A concrete square root for running the model: the integer square
    root of the argument scaled by [10^12], never below [10^-6]. *)
Definition qsqrt (x : Q) : Q :=
  if Qle_bool x 0 then 0
  else Z.max 1 (Z.sqrt (Qfloor (x * inject_Z (10 ^ 12)))) # 1000000.

Definition eps0 : Q := 1 # 1000000.

End Core.

(* ================================================================= *)
(** ** The fare model on binary64 floats *)

(** The encoder and the regressor once more, with every number an IEEE
    754 binary64 value and every operation rounded to nearest even, as
    Python floats behave: an overflow gives an infinity, [0 * inf] and
    [inf - inf] give a nan, and nothing of that raises.  What raises in
    Python is a float division by zero and [math.sqrt] of a negative
    number.  The class of the model is not in [app.py]; every definition
    is modelled from the specification.  The range check of section 7 is
    not part of this module: [Predict] and [Train] compute on whatever
    they are given. *)
Module Binary64.

Local Open Scope Z_scope.

Definition prec : Z := 53.
Definition emax : Z := 1024.

Definition binary64 : Type := spec_float.

Definition add : binary64 -> binary64 -> binary64 := SFadd prec emax.
Definition sub : binary64 -> binary64 -> binary64 := SFsub prec emax.
Definition mul : binary64 -> binary64 -> binary64 := SFmul prec emax.
Definition div : binary64 -> binary64 -> binary64 := SFdiv prec emax.
Definition sqrt : binary64 -> binary64 := SFsqrt prec emax.
Definition ltb : binary64 -> binary64 -> bool := SFltb.
Definition leb : binary64 -> binary64 -> bool := SFleb.
Definition eqb : binary64 -> binary64 -> bool := SFeqb.
Definition abs : binary64 -> binary64 := SFabs.

Definition zero : binary64 := S754_zero false.

(** [float(z)]. *)
Definition of_int (z : Z) : binary64 := binary_normalize prec emax z 0 false.

(** The float that the decimal [a / b] denotes, for [a] and [b] below
    [2^53]: the quotient rounded once. *)
Definition ratio (a b : Z) : binary64 := div (of_int a) (of_int b).

Definition is_finite (x : binary64) : bool :=
  match x with
  | S754_zero _ | S754_finite _ _ _ => true
  | S754_infinity _ | S754_nan => false
  end.

(** A value that is a binary64 float: the mantissa and the exponent are
    those of the format. *)
Definition well_formed (x : binary64) : bool := valid_binary prec emax x.

Definition in_range (lo hi : Z) (x : binary64) : bool :=
  leb (of_int lo) x && leb x (of_int hi).

(** Modelled from the spec: the invariant of RawFeatures (section 3) on
    the input of the missing model: four floats, all finite, hour in
    [0,23], day in [0,6]. *)
Definition valid_raw (r : Fields binary64) : bool :=
  fields_all well_formed r
  && is_finite (km r) && is_finite (min r)
  && in_range 0 23 (hour r) && in_range 0 6 (day r).

(** Modelled from the spec: EncoderState of the missing model
    (section 3), per field the count, the running mean and the sum of
    squared deviations of Welford's method. *)
Record FieldStats : Type := mkStats {
  count : N;
  mean : binary64;
  m2 : binary64
}.

(** Modelled from the spec: ModelWeights of the missing model
    (section 3). *)
Record ModelWeights : Type := mkWeights {
  coef : Fields binary64;
  intercept : binary64
}.

(** Modelled from the spec: ModelArtifact (section 3), the state of the
    missing model. *)
Record ModelArtifact : Type := mkArtifact {
  encoder : Fields FieldStats;
  weights : ModelWeights
}.

(** Modelled from the spec: the statistics of a field of the missing
    model before any observation. *)
Definition empty_stats : FieldStats := mkStats 0%N zero zero.

(** Modelled from the spec: the missing model right after creation,
    counts 0, weights and intercept 0 (sections 3 and 4.2). *)
Definition fresh : ModelArtifact :=
  mkArtifact
    (mkFields empty_stats empty_stats empty_stats empty_stats)
    (mkWeights (mkFields zero zero zero zero) zero).

(** Modelled from the spec: the running variance of the missing encoder
    (section 4.1), [m2 / count], and 0 while nothing was observed. *)
Definition variance (s : FieldStats) : binary64 :=
  if (count s =? 0)%N then zero else div (m2 s) (of_int (Z.of_N (count s))).

Section Numerics.

(** The small constant of [transform].  The spec does not fix it. *)
Variable eps : binary64.

(** The constant factor of the gradient.  The spec writes the step as
    learning rate times error times encoded value and calls it the
    gradient step of the squared-error loss, whose gradient has the
    factor 2; the factor is 1 for the formula as written and 2 for the
    gradient. *)
Variable grad_scale : binary64.

(** Modelled from the spec: [transform] of the missing encoder on one
    field (section 4.1), [(value - mean) / sqrt (variance + eps)], the
    raw value while the count is 0. *)
Definition transform_field (s : FieldStats) (v : binary64) : result binary64 :=
  if (count s =? 0)%N then Ok v
  else
    let r := add (variance s) eps in
    if ltb r zero then Raise ValueError
    else
      let d := sqrt r in
      if eqb d zero then Raise ZeroDivisionError
      else Ok (div (sub v (mean s)) d).

(** Modelled from the spec: [transform] of the missing encoder
    (section 4.1), field by field. *)
Definition transform (st : Fields FieldStats) (x : Fields binary64)
  : result (Fields binary64) :=
  fields_sequence (fields_zip transform_field st x).



(** Modelled from the spec: [predict] of the missing regressor
    (section 4.2), the products summed from the first field to the
    last, then the intercept. *)
Definition predict (w : ModelWeights) (e : Fields binary64) : binary64 :=
  let p := fields_zip mul (coef w) e in
  add (add (add (add (km p) (min p)) (hour p)) (day p)) (intercept w).


(** Modelled from the spec: the request [Predict] of the missing model
    (sections 2 and 6): encode, predict.  The state is only read. *)
Definition Predict (m : ModelArtifact) (r : Fields binary64) : result binary64 :=
  (e <- transform (encoder m) r ;;
   Ok (predict (weights m) e))%result.


End Numerics.

(** How far a prediction is from a fare. *)
Definition distance (fare prediction : binary64) : binary64 :=
  abs (sub fare prediction).

(** The scenario of section 8 of the spec in floats: the trip
    [{km: 5.0, min: 15, hour: 14, day: 2}], the fare [12.50], the
    learning rate [0.01]. *)
Definition trip : Fields binary64 :=
  mkFields (of_int 5) (of_int 15) (of_int 14) (of_int 2).


(** A value for the small constant: [1e-6]. *)
Definition eps0 : binary64 := ratio 1 1000000.


End Binary64.

(* ================================================================= *)
(** ** The script *)

(** The trip form of the calculator tab: what the four widgets and the
    submit button return in one run of the script. *)
Module Form.

Record t : Type := mk {
  distance : Q;        (* st.number_input, float bounds *)
  duration : Z;        (* st.number_input, int bounds *)
  hour : Z;            (* st.slider *)
  day_text : string;   (* st.selectbox *)
  submitted : bool     (* st.form_submit_button *)
}.

(** The options of the select box, in the order of the source. *)
Definition day_options : list string :=
  ["Monday"; "Tuesday"; "Wednesday"; "Thursday"; "Friday"; "Saturday";
   "Sunday"]%string.

(** What the widgets guarantee about the values they return:
    [min_value=0.1, max_value=200.0], [min_value=1, max_value=300],
    slider [0..23], one of the listed options. *)
Definition widgets_ok (f : t) : bool :=
  Qle_bool (1 # 10) (distance f) && Qle_bool (distance f) 200
  && (1 <=? duration f)%Z && (duration f <=? 300)%Z
  && (0 <=? hour f)%Z && (hour f <=? 23)%Z
  && existsb (String.eqb (day_text f)) day_options.

End Form.

Module App.

(** Rows of [gold_stats_hour.csv] and [gold_stats_day.csv] as the script
    expects them: the columns it names, a number or a name in every
    cell.  A CSV that can be read but has other columns or empty cells
    is not among the tables of this model. *)
Record HourRow : Type := mkHourRow {
  Hour : Z;
  Avg_Fare : Q
}.

Record DayRow : Type := mkDayRow {
  Day : string;
  Total_Trips : Z
}.

(** A name bound to a DataFrame or, after the [FileNotFoundError]
    branch of [load_resources], to [None]. *)
Inductive PyFrame (Row : Type) : Type :=
| FrameNone
| Frame (rows : list Row).
Arguments FrameNone {Row}.
Arguments Frame {Row} rows.

(** What [pickle.load] can hand back: [None], a model object with a
    [predict_one] method, or any other object. *)
Inductive PyObj (Model : Type) : Type :=
| PyNone
| PyModel (m : Model)
| PyOther (type_name : string).
Arguments PyNone {Model}.
Arguments PyModel {Model} m.
Arguments PyOther {Model} type_name.

(** The texts of [st.error] and [st.warning]. *)
Inductive Message : Type :=
| BucketReadError (e : exn)      (* f"Error reading from Bucket: {e}" *)
| CriticalModelNotFound          (* "Critical Error: 'modelo_taxi_river.pkl' not found." *)
| PleaseUploadModel              (* "Please make sure to upload the .pkl file to the app directory." *)
| PredictionError (e : exn)      (* f"Prediction Error: {e}" *)
| GoldDataNotLoaded.             (* "Gold data could not be loaded from the Bucket." *)

Inductive MetricValue : Type :=
| MFloat (f : float64)
| MInt (z : Z)
| MText (s : string).

(** What one run of the script does that is visible from outside: the
    files it opens and the Streamlit elements it draws, in order. *)
Inductive Event : Type :=
| IoOpen (path : string)
| IoReadCsv (path : string)
| StPageConfig
| StTitle (text : string)
| StMarkdown (text : string)
| StSubheader (text : string)
| StWrite (text : string)
| StCaption (text : string)
| StTabs (labels : list string)
| StColumns (n : nat)
| StTripForm
| StToast (text : string)
| StError (msg : Message)
| StWarning (msg : Message)
| StSuccess (estimated_fare : float64)
| StMetric (label : string) (value : MetricValue) (delta : option float64)
| StLineChart (series : list (Z * Q))
| StBarChart (series : list (string * Z)).

(** How a run, or a part of it, ends. *)
Inductive outcome (A : Type) : Type :=
| Done (a : A)
| Raised (e : exn)
| Stopped.
Arguments Done {A} a.
Arguments Raised {A} e.
Arguments Stopped {A}.

(** A piece of the script: its outcome and the events it produced. *)
Definition script (A : Type) : Type := (outcome A * list Event)%type.

Definition sret {A : Type} (a : A) : script A := (Done a, []).

Definition sbind {A B : Type} (c : script A) (k : A -> script B) : script B :=
  match c with
  | (Done a, tr) => let (o, tr') := k a in (o, tr ++ tr')
  | (Raised e, tr) => (Raised e, tr)
  | (Stopped, tr) => (Stopped, tr)
  end.

Definition emit (ev : Event) : script unit := (Done tt, [ev]).

Definition sraise {A : Type} (e : exn) : script A := (Raised e, []).

(** [st.stop()]. *)
Definition st_stop {A : Type} : script A := (Stopped, []).

Definition lift {A : Type} (r : result A) : script A :=
  match r with
  | Ok a => sret a
  | Raise e => sraise e
  end.

(** [try: body except Exception as e: handler e].  [st.stop] is not an
    [Exception] and passes through. *)
Definition try_except {A : Type} (body : script A) (handler : exn -> script A)
  : script A :=
  match body with
  | (Raised e, tr) => let (o, tr') := handler e in (o, tr ++ tr')
  | other => other
  end.

Declare Scope script_scope.
Delimit Scope script_scope with script.
Notation "x <- c ;; k" := (sbind c (fun x => k))
  (at level 61, c at next level, right associativity) : script_scope.
Notation "c ;; k" := (sbind c (fun _ => k))
  (at level 61, right associativity) : script_scope.

Local Open Scope script_scope.

Definition events {A : Type} (c : script A) : list Event := snd c.
Definition ending {A : Type} (c : script A) : outcome A := fst c.

(** The fare estimates a run has shown with [st.success]. *)
Fixpoint estimates_shown (tr : list Event) : list float64 :=
  match tr with
  | [] => []
  | StSuccess p :: tr' => p :: estimates_shown tr'
  | _ :: tr' => estimates_shown tr'
  end.

(** The [st.metric] elements: the comparison with the historical
    average in the calculator tab and the indicators of the dashboard. *)
Definition is_metric (ev : Event) : bool :=
  match ev with
  | StMetric _ _ _ => true
  | _ => false
  end.

Definition is_io (ev : Event) : bool :=
  match ev with
  | IoOpen _ | IoReadCsv _ => true
  | _ => false
  end.

Definition model_path : string := "modelo_taxi_fare.pkl".
Definition BUCKET_NAME : string := "final_project_051225".
Definition GOLD_PATH : string := ("gs://" ++ BUCKET_NAME ++ "/gold")%string.
Definition hour_csv : string := (GOLD_PATH ++ "/gold_stats_hour.csv")%string.
Definition day_csv : string := (GOLD_PATH ++ "/gold_stats_day.csv")%string.

(** [day_map] of the calculator tab. *)
Definition day_map : list (string * Z) :=
  [("Monday", 0); ("Tuesday", 1); ("Wednesday", 2); ("Thursday", 3);
   ("Friday", 4); ("Saturday", 5); ("Sunday", 6)]%string%Z.

(** [d[key]] on a dictionary: the value, or [KeyError]. *)
Fixpoint dict_get (d : list (string * Z)) (key : string) : result Z :=
  match d with
  | [] => Raise (KeyError key)
  | (k, v) :: d' => if String.eqb k key then Ok v else dict_get d' key
  end.

(** [x_input] of the calculator tab. *)
Definition x_input (f : Form.t) : result RawFeatures :=
  (d <- dict_get day_map (Form.day_text f) ;;
   Ok (mkFields (Fin (Form.distance f))
                (float_of_int (Form.duration f))
                (float_of_int (Form.hour f))
                (float_of_int d)))%result.

(** [df.empty]. *)
Definition frame_empty {Row : Type} (df : PyFrame Row) : result bool :=
  match df with
  | FrameNone => Raise (AttributeError "empty")
  | Frame [] => Ok true
  | Frame (_ :: _) => Ok false
  end.

Definition frame_rows {Row : Type} (df : PyFrame Row) : list Row :=
  match df with
  | FrameNone => []
  | Frame rows => rows
  end.

(** [df_hour[df_hour['Hour'] == hour]['Avg_Fare'].values[0]]. *)
Definition avg_fare_at_hour (rows : list HourRow) (h : Z) : result Q :=
  match filter (fun r => (Hour r =? h)%Z) rows with
  | [] => Raise IndexError
  | r :: _ => Ok (Avg_Fare r)
  end.

(** [df_hour['Avg_Fare'].mean()] on a table with rows, as the exact
    mean; the float the script shows is this mean up to rounding. *)
Definition global_avg (rows : list HourRow) : Q :=
  fold_right Qplus 0 (map Avg_Fare rows) / inject_Z (Z.of_nat (List.length rows)).

(** [df.sort_values(col, ascending=False).iloc[0]]: a row with the
    largest key, [IndexError] on a table without rows.  Among equal keys
    the earliest row is taken here. *)
Fixpoint top_by {Row : Type} (le : Row -> Row -> bool) (best : Row)
  (rows : list Row) : Row :=
  match rows with
  | [] => best
  | r :: rows' => top_by le (if le r best then best else r) rows'
  end.

Definition sort_desc_first {Row : Type} (le : Row -> Row -> bool)
  (rows : list Row) : result Row :=
  match rows with
  | [] => Raise IndexError
  | r :: rows' => Ok (top_by le r rows')
  end.

Definition most_expensive_hour (rows : list HourRow) : result Z :=
  (r <- sort_desc_first (fun a b => Qle_bool (Avg_Fare a) (Avg_Fare b)) rows ;;
   Ok (Hour r))%result.

Definition busiest_day (rows : list DayRow) : result string :=
  (r <- sort_desc_first (fun a b => (Total_Trips a <=? Total_Trips b)%Z) rows ;;
   Ok (Day r))%result.

Section WithModel.

(** The class of the pickled model is not in [app.py]: the script only
    calls its [predict_one] on the input dictionary. *)
Variable Model : Type.
Variable predict_one : Model -> RawFeatures -> result float64.

(** What [load_resources] returns. *)
Record Resources : Type := mkResources {
  model : PyObj Model;
  df_hour : PyFrame HourRow;
  df_day : PyFrame DayRow
}.

(** What the script finds outside itself: the result of opening and
    unpickling the model file, and of reading each CSV from the bucket. *)
Record Env : Type := mkEnv {
  pickle_load : result (PyObj Model);
  gold_stats_hour : result (list HourRow);
  gold_stats_day : result (list DayRow)
}.

(** The body of [load_resources]. *)
Definition load_resources (env : Env) : script Resources :=
  try_except
    (emit (IoOpen model_path) ;;
     model <- lift (pickle_load env) ;;
     frames <-
       try_except
         (emit (IoReadCsv hour_csv) ;;
          df_hour <- lift (gold_stats_hour env) ;;
          emit (IoReadCsv day_csv) ;;
          df_day <- lift (gold_stats_day env) ;;
          emit (StToast "Gold Data successfully loaded from GCS") ;;
          sret (Frame df_hour, Frame df_day))
         (fun e =>
            emit (StError (BucketReadError e)) ;;
            sret (Frame [], Frame [])) ;;
     sret (mkResources model (fst frames) (snd frames)))
    (fun e =>
       match e with
       | FileNotFoundError => sret (mkResources PyNone FrameNone FrameNone)
       | _ => sraise e
       end).

(** [@st.cache_resource]: the first call that returns stores its value
    and the elements it drew; later calls in the same process do not run
    the body, they return the stored value and draw the stored elements
    again. *)
Definition Cache : Type := option (Resources * list Event).

Definition cache_resource (cache : Cache) (body : script Resources)
  : script Resources * Cache :=
  match cache with
  | Some (r, drawn) => ((Done r, drawn), cache)
  | None =>
      match body with
      | (Done r, tr) => (body, Some (r, filter (fun ev => negb (is_io ev)) tr))
      | _ => (body, None)
      end
  end.

(** [model.predict_one(x)] on whatever was unpickled. *)
Definition call_predict_one (o : PyObj Model) (x : RawFeatures) : result float64 :=
  match o with
  | PyModel m => predict_one m x
  | PyNone | PyOther _ => Raise (AttributeError "predict_one")
  end.

(** Page configuration and titles. *)
Definition header : script unit :=
  emit StPageConfig ;;
  emit (StTitle "Chicago Taxi: AI & Analytics") ;;
  emit (StMarkdown "### Final Cloud Computing Project") ;;
  emit (StMarkdown
    "Integrated platform for Fare Prediction (AI) and Business Intelligence (BI).").

(** The [try] block of the calculator tab. *)
Definition predict_block (res : Resources) (h : Z) (x : RawFeatures) : script unit :=
  try_except
    (prediction <- lift (call_predict_one (model res) x) ;;
     emit (StMarkdown "---") ;;
     emit (StSuccess prediction) ;;
     empty <- lift (frame_empty (df_hour res)) ;;
     if negb empty then
       avg <- lift (avg_fare_at_hour (frame_rows (df_hour res)) h) ;;
       let diff := fsub prediction (Fin avg) in
       emit (StColumns 2) ;;
       emit (StMetric "Your Estimate" (MFloat prediction) None) ;;
       emit (StMetric "Hist. Avg at this Hour" (MFloat (Fin avg)) (Some diff))
     else sret tt)
    (fun e => emit (StError (PredictionError e))).

(** The calculator tab. *)
Definition tab1 (res : Resources) (f : Form.t) : script unit :=
  emit (StSubheader "Real-time Fare Estimator") ;;
  emit (StWrite "Enter trip details to estimate the taximeter cost.") ;;
  emit StTripForm ;;
  if Form.submitted f then
    x <- lift (x_input f) ;;
    predict_block res (Form.hour f) x
  else sret tt.

(** The [else] branch of the dashboard tab: indicators and charts. *)
Definition dashboard (hours : list HourRow) (days : list DayRow) : script unit :=
  emit (StMarkdown "#### Key Performance Indicators") ;;
  emit (StColumns 3) ;;
  let avg := global_avg hours in
  top_hour <- lift (most_expensive_hour hours) ;;
  top_day <- lift (busiest_day days) ;;
  emit (StMetric "Global Avg Fare" (MFloat (Fin avg)) None) ;;
  emit (StMetric "Most Expensive Hour" (MInt top_hour) None) ;;
  emit (StMetric "Busiest Day" (MText top_day) None) ;;
  emit (StMarkdown "---") ;;
  emit (StColumns 2) ;;
  emit (StMarkdown "##### Average Fare by Hour") ;;
  emit (StLineChart (map (fun r => (Hour r, Avg_Fare r)) hours)) ;;
  emit (StCaption "Price fluctuations throughout the day.") ;;
  emit (StMarkdown "##### Total Trips by Day") ;;
  emit (StBarChart (map (fun r => (Day r, Total_Trips r)) days)) ;;
  emit (StCaption "Demand volume distribution across the week.").

(** The dashboard tab.  [or] evaluates [df_day.empty] only when
    [df_hour.empty] is false. *)
Definition tab2 (res : Resources) : script unit :=
  emit (StSubheader "Historical Market Trends (Gold Layer)") ;;
  hour_empty <- lift (frame_empty (df_hour res)) ;;
  no_data <- (if hour_empty then sret true
              else lift (frame_empty (df_day res))) ;;
  if no_data then emit (StWarning GoldDataNotLoaded)
  else dashboard (frame_rows (df_hour res)) (frame_rows (df_day res)).

(** Everything after [load_resources] has returned. *)
Definition serve_page (res : Resources) (f : Form.t) : script unit :=
  match model res with
  | PyNone =>
      emit (StError CriticalModelNotFound) ;;
      emit (StWarning PleaseUploadModel) ;;
      st_stop
  | _ =>
      emit (StTabs ["Fare Calculator"; "Business Dashboard"]%string) ;;
      tab1 res f ;;
      tab2 res
  end.

(** One run of the script: the process-wide cache as it was, the world
    outside, what the form returns.  The result is the run and the cache
    as it is left. *)
Definition run_script (cache : Cache) (env : Env) (f : Form.t)
  : script unit * Cache :=
  let (loaded, cache') := cache_resource cache (load_resources env) in
  (header ;; res <- loaded ;; serve_page res f, cache').

(** The first run of a process. *)
Definition first_run (env : Env) (f : Form.t) : script unit :=
  fst (run_script None env f).

(** StatisticsUnavailable: a CSV could not be read, or came without
    rows. *)
Definition hourly_unavailable (env : Env) : Prop :=
  (exists e, gold_stats_hour env = Raise e)
  \/ (exists e, gold_stats_day env = Raise e)
  \/ gold_stats_hour env = Ok [].

Definition stats_unavailable (env : Env) : Prop :=
  hourly_unavailable env \/ gold_stats_day env = Ok [].

(** The estimates a first run shows, read off the unpickled object and
    the form alone. *)
Definition estimates_from (loaded : result (PyObj Model)) (f : Form.t)
  : list float64 :=
  match loaded with
  | Ok PyNone | Raise _ => []
  | Ok o =>
      if Form.submitted f then
        match x_input f with
        | Ok x =>
            match call_predict_one o x with
            | Ok p => [p]
            | Raise _ => []
            end
        | Raise _ => []
        end
      else []
  end.

End WithModel.

Arguments mkResources {Model} _ _ _.
Arguments model {Model} _.
Arguments df_hour {Model} _.
Arguments df_day {Model} _.
Arguments mkEnv {Model} _ _ _.
Arguments pickle_load {Model} _.
Arguments gold_stats_hour {Model} _.
Arguments gold_stats_day {Model} _.

End App.

(* ================================================================= *)
(** ** Concrete inputs *)

Module Scenario.

(** The trip of the scenario in section 8 of the spec:
    [{km: 5.0, min: 15, hour: 14, day: 2}] with fare [12.50] and
    learning rate [0.01]. *)
Definition trip : RawFeatures := mkFields (Fin 5) (Fin 15) (Fin 14) (Fin 2).

Definition Predict := Core.Predict Core.eps0 Core.qsqrt.

(** The form filled in with the same trip and submitted. *)
Definition form : Form.t := Form.mk 5 15 14 "Wednesday" true.

(** An hourly table with a row for every hour but 14. *)
Definition hours_without_14 : list App.HourRow :=
  [App.mkHourRow 13 (21 # 2); App.mkHourRow 15 (23 # 2)].

Definition days : list App.DayRow :=
  [App.mkDayRow "Monday" 1200; App.mkDayRow "Friday" 1900].

(** The model file holds a fresh model and both CSVs are readable. *)
Definition env_without_14 : App.Env Core.ModelArtifact :=
  App.mkEnv (Ok (App.PyModel Core.fresh)) (Ok hours_without_14) (Ok days).

(** The model file holds a fresh model, the bucket cannot be read. *)
Definition env_no_bucket : App.Env Core.ModelArtifact :=
  App.mkEnv (Ok (App.PyModel Core.fresh))
    (Raise (OtherError "bucket not reachable")) (Ok days).

(** There is no model file. *)
Definition env_no_model : App.Env Core.ModelArtifact :=
  App.mkEnv (Raise FileNotFoundError) (Ok hours_without_14) (Ok days).

(** The model file holds a pickled dictionary, not a model. *)
Definition env_wrong_pickle : App.Env Core.ModelArtifact :=
  App.mkEnv (Ok (App.PyOther "dict")) (Ok hours_without_14) (Ok days).

(** An hourly table with two rows for hour 14. *)
Definition hours_with_14 : list App.HourRow :=
  [App.mkHourRow 13 (21 # 2); App.mkHourRow 14 (27 # 2);
   App.mkHourRow 14 (31 # 2); App.mkHourRow 15 (23 # 2)].

(** The model file holds a fresh model and both CSVs are readable, with
    rows for hour 14. *)
Definition env_with_14 : App.Env Core.ModelArtifact :=
  App.mkEnv (Ok (App.PyModel Core.fresh)) (Ok hours_with_14) (Ok days).

(** The hourly CSV is readable, the daily one is not. *)
Definition env_day_unreadable : App.Env Core.ModelArtifact :=
  App.mkEnv (Ok (App.PyModel Core.fresh)) (Ok hours_with_14)
    (Raise (OtherError "daily file not found in bucket")).

(** The model file holds a pickled [None]. *)
Definition env_pickled_none : App.Env Core.ModelArtifact :=
  App.mkEnv (Ok App.PyNone) (Ok hours_with_14) (Ok days).

(** The model file is there but cannot be unpickled. *)
Definition env_unpickle_fails : App.Env Core.ModelArtifact :=
  App.mkEnv (Raise (OtherError "unpickling stack underflow"))
    (Ok hours_with_14) (Ok days).

(** The form as it is before the button is pressed. *)
Definition form_not_submitted : Form.t := Form.mk 5 15 14 "Wednesday" false.

(** A form with a day name the select box does not offer. *)
Definition form_unknown_day : Form.t := Form.mk 5 15 14 "Miercoles" true.


(** A model that answers 0.0 to every dictionary. *)
Definition zero_predict (m : Core.ModelArtifact) (x : RawFeatures)
  : result float64 :=
  Ok (Fin 0).

(** A model whose [predict_one] always fails. *)
Definition failing_predict (m : Core.ModelArtifact) (x : RawFeatures)
  : result float64 :=
  Raise (OtherError "model is broken").

End Scenario.

(* ================================================================= *)
(** ** Facts about the fare model on floats *)

Module Binary64Facts.
Import Binary64.










End Binary64Facts.

(* ================================================================= *)
(** ** Facts about the script *)

Module AppFacts.
Import App.

Lemma estimates_shown_app (tr tr' : list Event) :
  estimates_shown (tr ++ tr') = estimates_shown tr ++ estimates_shown tr'.
Proof.
  induction tr as [| ev tr IH]; [reflexivity|].
  destruct ev; cbn [estimates_shown app]; rewrite IH; reflexivity.
Qed.

Lemma dict_get_day_map (s : string) :
  existsb (String.eqb s) Form.day_options = true ->
  exists d, dict_get day_map s = Ok d /\ (0 <= d <= 6)%Z.
Proof.
  unfold Form.day_options. cbn [existsb]. rewrite !orb_true_iff.
  intros [H | [H | [H | [H | [H | [H | [H | H]]]]]]];
    try discriminate; apply String.eqb_eq in H; subst s;
    eexists; (split; [reflexivity | lia]).
Qed.

Section WithModel.

Variable Model : Type.
Variable predict_one : Model -> RawFeatures -> result float64.

Lemma in_range_int (lo hi z : Z) :
  (lo <= z <= hi)%Z ->
  Core.in_range (inject_Z lo) (inject_Z hi) (float_of_int z) = true.
Proof.
  intro H. unfold Core.in_range, float_of_int.
  apply andb_true_iff. split; apply Qle_bool_iff; rewrite <- Zle_Qle; lia.
Qed.

(** A form whose widgets kept their bounds gives a dictionary the model
    takes for valid. *)
Lemma x_input_valid (f : Form.t) :
  Form.widgets_ok f = true ->
  exists x, x_input f = Ok x /\ Core.valid_raw x = true.
Proof.
  unfold Form.widgets_ok. rewrite !andb_true_iff.
  intros ((((((_ & _) & _) & _) & E) & F) & G).
  apply Z.leb_le in E, F.
  destruct (dict_get_day_map _ G) as (d & Hd & Hr).
  unfold x_input. rewrite Hd. eexists. split; [reflexivity|].
  unfold Core.valid_raw. cbn [km min hour day is_finite andb float_of_int].
  apply andb_true_iff. split.
  - apply (in_range_int 0 23). lia.
  - apply (in_range_int 0 6). exact Hr.
Qed.

(** C9: the dictionary built from the form satisfies the RawFeatures
    invariant whenever the widgets kept their bounds: km is the distance
    in [0.1, 200], min the duration in [1, 300], hour an integer in
    [0, 23], day an integer in [0, 6] taken from [day_map], all four
    finite, and the dictionary is valid for the model. *)
Theorem x_input_well_formed (f : Form.t) :
  Form.widgets_ok f = true ->
  exists x d,
    x_input f = Ok x
    /\ km x = Fin (Form.distance f)
    /\ 1 # 10 <= Form.distance f /\ Form.distance f <= 200
    /\ min x = Fin (inject_Z (Form.duration f))
    /\ (1 <= Form.duration f <= 300)%Z
    /\ hour x = Fin (inject_Z (Form.hour f))
    /\ (0 <= Form.hour f <= 23)%Z
    /\ dict_get day_map (Form.day_text f) = Ok d
    /\ day x = Fin (inject_Z d)
    /\ (0 <= d <= 6)%Z
    /\ fields_all is_finite x = true
    /\ Core.valid_raw x = true.
Proof.
  intro W. destruct (x_input_valid f W) as (x & X & V).
  revert W. unfold Form.widgets_ok. rewrite !andb_true_iff.
  intros ((((((A & B) & C) & D) & E) & F) & G).
  apply Qle_bool_iff in A, B. apply Z.leb_le in C, D, E, F.
  destruct (dict_get_day_map _ G) as (d & Hd & Hr).
  exists x, d. split; [exact X|].
  unfold x_input in X. rewrite Hd in X. cbn [rbind] in X.
  injection X as <-. cbn [km min hour day float_of_int].
  repeat (split; try assumption; try reflexivity; try lia).
Qed.

(** What [load_resources] does when the model file is not there: one
    attempt to open it, then the triple of [None]. *)
Lemma load_resources_absent (env : Env Model) :
  pickle_load env = Raise FileNotFoundError ->
  load_resources Model env
  = (Done (mkResources PyNone FrameNone FrameNone), [IoOpen model_path]).
Proof.
  intro H. unfold load_resources. rewrite H. reflexivity.
Qed.

(** C3: when the model file is absent, [load_resources] reports it as a
    model that is [None]; the run opens the file once, shows the
    critical error and the warning and stops, no tab is drawn and no
    estimate is shown.  The outcome stays in the process cache: every
    later run, whatever the files and the form have become, stops in
    the same way without opening the file again. *)
Theorem absent_model_halts (env : Env Model) (f : Form.t) :
  pickle_load env = Raise FileNotFoundError ->
  let halted := [StError CriticalModelNotFound; StWarning PleaseUploadModel] in
  let cache' := snd (run_script Model predict_one None env f) in
  ending (load_resources Model env)
  = Done (mkResources PyNone FrameNone FrameNone)
  /\ first_run Model predict_one env f
     = (Stopped, events header ++ IoOpen model_path :: halted)
  /\ estimates_shown (events (first_run Model predict_one env f)) = []
  /\ forall env' f',
       run_script Model predict_one cache' env' f'
       = ((Stopped, events header ++ halted), cache').
Proof.
  intro H. cbv zeta.
  unfold first_run, run_script, cache_resource.
  rewrite (load_resources_absent env H).
  repeat split.
Qed.

(** C10: when the hourly table has rows but none for the selected hour,
    the [try] block has already computed and shown the estimate when
    the lookup of the historical average raises [IndexError]; the block
    then reports a prediction error, and these three elements are all
    it draws. *)
Theorem missing_hour_row_reports_error
  (res : Resources Model) (h : Z) (x : RawFeatures) (p : float64)
  (rows : list HourRow) :
  call_predict_one Model predict_one (model res) x = Ok p ->
  df_hour res = Frame rows ->
  rows <> [] ->
  (forall r, In r rows -> Hour r <> h) ->
  avg_fare_at_hour rows h = Raise IndexError
  /\ predict_block Model predict_one res h x
     = (Done tt,
        [StMarkdown "---"; StSuccess p; StError (PredictionError IndexError)]).
Proof.
  intros P D N M.
  assert (A : avg_fare_at_hour rows h = Raise IndexError).
  { unfold avg_fare_at_hour.
    replace (filter (fun r => (Hour r =? h)%Z) rows) with (@nil HourRow);
      [reflexivity|].
    symmetry. clear N D. induction rows as [| r rows IH]; [reflexivity|].
    cbn [filter].
    destruct (Z.eqb_spec (Hour r) h) as [E | _].
    - exfalso. exact (M r (or_introl eq_refl) E).
    - apply IH. intros r' I. apply M. right. exact I. }
  split; [exact A|].
  unfold predict_block. rewrite P, D.
  destruct rows as [| r rows]; [contradiction|].
  cbn [frame_empty frame_rows]. rewrite A. reflexivity.
Qed.

(** What [load_resources] returns once the model file was unpickled:
    the object as it is, with both tables as read or both empty. *)
Lemma load_resources_loaded (env : Env Model) (o : PyObj Model) :
  pickle_load env = Ok o ->
  exists hours days tr,
    load_resources Model env = (Done (mkResources o (Frame hours) (Frame days)), tr)
    /\ estimates_shown tr = []
    /\ filter is_metric tr = []
    /\ (forall e, ~ In (StError (PredictionError e)) tr)
    /\ match gold_stats_hour env, gold_stats_day env with
       | Ok h, Ok d => hours = h /\ days = d
       | _, _ => hours = [] /\ days = []
       end.
Proof.
  intro H. unfold load_resources. rewrite H.
  destruct (gold_stats_hour env) as [h | e];
    [destruct (gold_stats_day env) as [d | e]|];
    do 3 eexists; (split; [reflexivity|]);
    (split; [reflexivity|]); (split; [reflexivity|]);
    (split; [|split; reflexivity]);
    intros e' I; cbn in I; intuition discriminate.
Qed.

(** The [try] block never ends the run: it shows the estimate when
    [predict_one] returns and turns every exception into an error
    element. *)
Lemma predict_block_done (res : Resources Model) (h : Z) (x : RawFeatures) :
  ending (predict_block Model predict_one res h x) = Done tt
  /\ estimates_shown (events (predict_block Model predict_one res h x))
     = match call_predict_one Model predict_one (model res) x with
       | Ok p => [p]
       | Raise _ => []
       end.
Proof.
  unfold predict_block.
  destruct (call_predict_one Model predict_one (model res) x) as [p | e];
    [|split; reflexivity].
  destruct (df_hour res) as [| [| r rows]]; try (split; reflexivity).
  cbn [lift frame_empty frame_rows sbind sret emit try_except negb].
  destruct (avg_fare_at_hour (r :: rows) h); split; reflexivity.
Qed.

(** Without hourly rows the [try] block draws the rule and the
    estimate and nothing else. *)
Lemma predict_block_no_rows (res : Resources Model) (h : Z) (x : RawFeatures)
  (p : float64) :
  df_hour res = Frame [] ->
  call_predict_one Model predict_one (model res) x = Ok p ->
  predict_block Model predict_one res h x
  = (Done tt, [StMarkdown "---"; StSuccess p]).
Proof.
  intros D P. unfold predict_block. rewrite D, P. reflexivity.
Qed.

Lemma predict_block_no_comparison (res : Resources Model) (h : Z) (x : RawFeatures) :
  df_hour res = Frame [] ->
  filter is_metric (events (predict_block Model predict_one res h x)) = [].
Proof.
  intro D. unfold predict_block. rewrite D.
  destruct (call_predict_one Model predict_one (model res) x); reflexivity.
Qed.

Lemma tab2_warns (res : Resources Model) (hours : list HourRow) (days : list DayRow) :
  df_hour res = Frame hours -> df_day res = Frame days ->
  hours = [] \/ days = [] ->
  tab2 Model res
  = (Done tt,
     [StSubheader "Historical Market Trends (Gold Layer)";
      StWarning GoldDataNotLoaded]).
Proof.
  intros Dh Dd E. unfold tab2. rewrite Dh, Dd.
  destruct hours as [| r hours]; [reflexivity|].
  destruct E as [E | E]; [discriminate|]. rewrite E. reflexivity.
Qed.

(** A run in which the model was loaded and the form submitted, put
    together from its parts. *)
Lemma first_run_loaded (env : Env Model) (f : Form.t) (m : Model)
  (x : RawFeatures) (res : Resources Model) (tr ptr t2 : list Event)
  (o2 : outcome unit) :
  load_resources Model env = (Done res, tr) ->
  model res = PyModel m ->
  Form.submitted f = true ->
  x_input f = Ok x ->
  predict_block Model predict_one res (Form.hour f) x = (Done tt, ptr) ->
  tab2 Model res = (o2, t2) ->
  first_run Model predict_one env f
  = (o2,
     events header
     ++ tr
     ++ [StTabs ["Fare Calculator"; "Business Dashboard"]%string;
         StSubheader "Real-time Fare Estimator";
         StWrite "Enter trip details to estimate the taximeter cost.";
         StTripForm]
     ++ ptr ++ t2).
Proof.
  intros L M S X PB T2.
  unfold first_run, run_script, cache_resource. rewrite L.
  cbn [fst]. unfold header. cbn [sbind emit app].
  unfold serve_page, tab1. rewrite M, S, X.
  cbn [lift sret sbind emit app]. rewrite PB, T2. reflexivity.
Qed.

(** C4: with the model loaded and the form submitted, a run in which
    the statistics are unavailable (a CSV could not be read, or a table
    has no rows) ends normally, shows exactly the estimate [predict_one]
    returns and shows the warning of the dashboard tab.  When it is the
    hourly table that is missing or empty, or either CSV could not be
    read, no metric is drawn, so no comparison with the historical
    average, and no prediction error either once [predict_one] has
    returned. *)
Theorem statistics_unavailable_degrades (env : Env Model) (f : Form.t)
  (m : Model) (x : RawFeatures) :
  pickle_load env = Ok (PyModel m) ->
  Form.submitted f = true ->
  x_input f = Ok x ->
  stats_unavailable Model env ->
  let run := first_run Model predict_one env f in
  ending run = Done tt
  /\ estimates_shown (events run)
     = match predict_one m x with
       | Ok p => [p]
       | Raise _ => []
       end
  /\ In (StWarning GoldDataNotLoaded) (events run)
  /\ (hourly_unavailable Model env ->
      filter is_metric (events run) = []
      /\ forall p, predict_one m x = Ok p ->
                   forall e, ~ In (StError (PredictionError e)) (events run)).
Proof.
  intros L S X U. cbv zeta.
  destruct (load_resources_loaded env _ L)
    as (hours & days & tr & LR & Etr & Ctr & Ptr & T).
  assert (E : hours = [] \/ days = []).
  { destruct U as [[(e & H) | [(e & H) | H]] | H]; rewrite H in T.
    - left. apply T.
    - destruct (gold_stats_hour env); left; apply T.
    - destruct (gold_stats_day env); left; apply T.
    - destruct (gold_stats_hour env); [right | left]; apply T. }
  set (res := mkResources (PyModel m) (Frame hours) (Frame days)) in *.
  pose proof (tab2_warns res hours days eq_refl eq_refl E) as T2.
  destruct (predict_block_done res (Form.hour f) x) as (PE & PS).
  cbn [call_predict_one model res] in PS.
  destruct (predict_block Model predict_one res (Form.hour f) x)
    as (o & ptr) eqn:PB.
  cbn [ending events fst snd] in PE, PS. subst o.
  rewrite (first_run_loaded env f m x res tr ptr _ _ LR eq_refl S X PB T2).
  cbn [ending events fst snd].
  split; [reflexivity|]. split; [|split].
  - rewrite !estimates_shown_app, Etr, PS. cbn [estimates_shown app].
    apply app_nil_r.
  - apply in_or_app. right. apply in_or_app. right.
    apply in_or_app. right. apply in_or_app. right.
    right. left. reflexivity.
  - intro HU.
    assert (E0 : hours = []).
    { destruct HU as [(e & H) | [(e & H) | H]]; rewrite H in T.
      - apply T.
      - destruct (gold_stats_hour env); apply T.
      - destruct (gold_stats_day env); apply T. }
    subst hours. split.
    + pose proof (predict_block_no_comparison res (Form.hour f) x eq_refl) as NC.
      rewrite PB in NC. cbn [events snd] in NC.
      rewrite !filter_app, Ctr, NC. reflexivity.
    + intros p P e I.
      rewrite (predict_block_no_rows res (Form.hour f) x p eq_refl P) in PB.
      injection PB as <-.
      apply in_app_or in I. destruct I as [I | I];
        [cbn in I; intuition discriminate|].
      apply in_app_or in I. destruct I as [I | I]; [exact (Ptr e I)|].
      cbn in I. intuition discriminate.
Qed.

Lemma tab2_shows_no_estimate (res : Resources Model) :
  estimates_shown (events (tab2 Model res)) = [].
Proof.
  unfold tab2.
  destruct (df_hour res) as [| [| h hours]]; try reflexivity.
  destruct (df_day res) as [| [| d days]]; reflexivity.
Qed.

Lemma serve_page_estimates (res : Resources Model) (f : Form.t) :
  estimates_shown (events (serve_page Model predict_one res f))
  = estimates_from Model predict_one (Ok (model res)) f.
Proof.
  unfold serve_page, estimates_from, tab1.
  pose proof (tab2_shows_no_estimate res) as T2.
  destruct (tab2 Model res) as (o2 & t2). cbn [events snd] in T2.
  destruct (model res) as [| m | t] eqn:M; [reflexivity | |];
    (destruct (Form.submitted f); [|cbn; exact T2]);
    (destruct (x_input f) as [x | e]; [|reflexivity]);
    destruct (predict_block_done res (Form.hour f) x) as (PE & PS);
    rewrite M in PS;
    cbn [lift sret sbind emit app];
    destruct (predict_block Model predict_one res (Form.hour f) x) as (o & ptr);
    cbn [ending events fst snd] in PE, PS; subst o;
    cbn [sbind app events snd estimates_shown];
    rewrite estimates_shown_app, T2, PS, app_nil_r; reflexivity.
Qed.

(** The estimates a first run shows depend on the unpickled object and
    on the form only. *)
Lemma first_run_estimates (env : Env Model) (f : Form.t) :
  estimates_shown (events (first_run Model predict_one env f))
  = estimates_from Model predict_one (pickle_load env) f.
Proof.
  destruct (pickle_load env) as [o | e] eqn:L.
  - destruct (load_resources_loaded env o L) as (hours & days & tr & LR & Etr & _).
    unfold first_run, run_script, cache_resource. rewrite LR.
    pose proof (serve_page_estimates
                  (mkResources o (Frame hours) (Frame days)) f) as SP.
    cbn [model] in SP. cbn [fst header sbind emit app].
    destruct (serve_page Model predict_one
                (mkResources o (Frame hours) (Frame days)) f) as (o' & tr').
    cbn [events snd estimates_shown] in *.
    rewrite estimates_shown_app, Etr, SP. reflexivity.
  - unfold first_run, run_script, cache_resource, load_resources. rewrite L.
    destruct e; reflexivity.
Qed.

(** C5: the aggregate tables are not an input of the model.  The
    dictionary handed to [predict_one] is built from the form alone, and
    for any two contents of the tables (readable or not) the estimates a
    run shows for the same model file and the same form are the same. *)
Theorem estimate_independent_of_tables
  (loaded : result (PyObj Model)) (f : Form.t)
  (hours hours' : result (list HourRow)) (days days' : result (list DayRow)) :
  estimates_shown
    (events (first_run Model predict_one (mkEnv loaded hours days) f))
  = estimates_shown
      (events (first_run Model predict_one (mkEnv loaded hours' days') f)).
Proof.
  rewrite !first_run_estimates. reflexivity.
Qed.

End WithModel.

Lemma x_input_well_formed_witness :
  Form.widgets_ok Scenario.form = true
  /\ x_input Scenario.form = Ok Scenario.trip
  /\ Core.valid_raw Scenario.trip = true.
Proof.
  split; [reflexivity|].
  destruct (x_input_well_formed Scenario.form eq_refl)
    as (x & d & X & _ & _ & _ & _ & _ & _ & _ & _ & _ & _ & _ & V).
  split; [reflexivity|].
  replace Scenario.trip with x; [exact V|].
  cbv in X. injection X as <-. reflexivity.
Defined.

Lemma absent_model_halts_witness :
  pickle_load Scenario.env_no_model = Raise FileNotFoundError
  /\ first_run _ Scenario.Predict Scenario.env_no_model Scenario.form
     = (Stopped,
        events header
        ++ [IoOpen model_path; StError CriticalModelNotFound;
            StWarning PleaseUploadModel])
  /\ estimates_shown
       (events (first_run _ Scenario.Predict Scenario.env_no_model Scenario.form))
     = [].
Proof.
  split; [reflexivity|].
  destruct (absent_model_halts _ Scenario.Predict Scenario.env_no_model
              Scenario.form eq_refl) as (_ & R & E & _).
  split; [exact R | exact E].
Defined.

Lemma missing_hour_row_reports_error_witness :
  let res := mkResources (PyModel Core.fresh)
               (Frame Scenario.hours_without_14) (Frame Scenario.days) in
  call_predict_one _ Scenario.Predict (model res) Scenario.trip = Ok (Fin 0)
  /\ Scenario.hours_without_14 <> []
  /\ (forall r, In r Scenario.hours_without_14 -> Hour r <> 14%Z)
  /\ predict_block _ Scenario.Predict res 14 Scenario.trip
     = (Done tt,
        [StMarkdown "---"; StSuccess (Fin 0);
         StError (PredictionError IndexError)]).
Proof.
  cbv zeta.
  assert (N : Scenario.hours_without_14 <> []) by discriminate.
  assert (M : forall r, In r Scenario.hours_without_14 -> Hour r <> 14%Z).
  { intros r [<- | [<- | []]]; discriminate. }
  split; [reflexivity|]. split; [exact N|]. split; [exact M|].
  exact (proj2 (missing_hour_row_reports_error _ Scenario.Predict
                  (mkResources (PyModel Core.fresh)
                     (Frame Scenario.hours_without_14) (Frame Scenario.days))
                  14 Scenario.trip (Fin 0) Scenario.hours_without_14
                  eq_refl eq_refl N M)).
Defined.

Lemma statistics_unavailable_degrades_witness :
  stats_unavailable _ Scenario.env_no_bucket
  /\ hourly_unavailable _ Scenario.env_no_bucket
  /\ x_input Scenario.form = Ok Scenario.trip
  /\ Scenario.Predict Core.fresh Scenario.trip = Ok (Fin 0)
  /\ let run := first_run _ Scenario.Predict Scenario.env_no_bucket Scenario.form in
     ending run = Done tt
     /\ estimates_shown (events run) = [Fin 0]
     /\ In (StWarning GoldDataNotLoaded) (events run)
     /\ filter is_metric (events run) = []
     /\ forall e, ~ In (StError (PredictionError e)) (events run).
Proof.
  assert (H : hourly_unavailable _ Scenario.env_no_bucket).
  { left. eexists. reflexivity. }
  split; [left; exact H|]. split; [exact H|].
  split; [reflexivity|]. split; [reflexivity|].
  destruct (statistics_unavailable_degrades _ Scenario.Predict
              Scenario.env_no_bucket Scenario.form Core.fresh Scenario.trip
              eq_refl eq_refl eq_refl (or_introl H))
    as (A & B & C & D).
  destruct (D H) as (D1 & D2).
  cbv zeta. split; [exact A|]. split; [exact B|]. split; [exact C|].
  split; [exact D1 | exact (D2 (Fin 0) eq_refl)].
Defined.

(** A submitted form for hour 14 against an hourly table without that
    hour, as a whole run: the estimate is shown, then the prediction
    error, and the dashboard is drawn after it. *)
Lemma run_without_hour_14 :
  let run := first_run _ Scenario.Predict Scenario.env_without_14 Scenario.form in
  ending run = Done tt
  /\ estimates_shown (events run) = [Fin 0]
  /\ filter is_metric (events run)
     = [StMetric "Global Avg Fare" (MFloat (Fin (88 # 8))) None;
        StMetric "Most Expensive Hour" (MInt 15) None;
        StMetric "Busiest Day" (MText "Friday") None]
  /\ In (StError (PredictionError IndexError)) (events run).
Proof.
  cbv zeta. split; [reflexivity|]. split; [reflexivity|].
  split; [reflexivity|].
  vm_compute. do 14 right. left. reflexivity.
Qed.

(** A model file that holds a pickled dictionary is not rejected:
    [load_resources] returns the dictionary as the model after reading
    both tables, draws no error, and the run goes on to draw the tabs
    and ends normally. *)
Lemma wrong_pickle_is_not_rejected :
  load_resources _ Scenario.env_wrong_pickle
  = (Done (mkResources (PyOther "dict")
             (Frame Scenario.hours_without_14) (Frame Scenario.days)),
     [IoOpen model_path; IoReadCsv hour_csv; IoReadCsv day_csv;
      StToast "Gold Data successfully loaded from GCS"])
  /\ ending (first_run _ Scenario.Predict Scenario.env_wrong_pickle Scenario.form)
     = Done tt
  /\ In (StTabs ["Fare Calculator"; "Business Dashboard"]%string)
        (events (first_run _ Scenario.Predict Scenario.env_wrong_pickle
                   Scenario.form))
  /\ ~ In (StError CriticalModelNotFound)
          (events (first_run _ Scenario.Predict Scenario.env_wrong_pickle
                     Scenario.form)).
Proof.
  split; [reflexivity|]. split; [reflexivity|]. split.
  - vm_compute. do 8 right. left. reflexivity.
  - vm_compute. intuition discriminate.
Qed.

End AppFacts.

(* ================================================================= *)
(** ** More facts about the script *)

Module ScriptFacts.
Import App.

(** [day_map] numbers the days as the select box lists them. *)
Lemma day_map_position (s : string) (d : Z) :
  dict_get day_map s = Ok d
  <-> (0 <= d)%Z /\ nth_error Form.day_options (Z.to_nat d) = Some s.
Proof.
  split.
  - unfold day_map. cbn [dict_get].
    repeat match goal with
    | |- context [String.eqb ?a s] =>
        destruct (String.eqb_spec a s) as [<- | _];
        [intro H; injection H as <-; split; [lia | reflexivity]|]
    end.
    discriminate.
  - intros (Hd & H).
    assert (B : (Z.to_nat d < 7)%nat).
    { change 7%nat with (List.length Form.day_options).
      apply nth_error_Some. rewrite H. discriminate. }
    assert (E : d = Z.of_nat (Z.to_nat d)) by lia.
    destruct (Z.to_nat d) as [| [| [| [| [| [| [| n]]]]]]]; try lia;
      cbn in H; injection H as <-; rewrite E; reflexivity.
Qed.

Lemma day_map_missing (s : string) :
  ~ In s Form.day_options -> dict_get day_map s = Raise (KeyError s).
Proof.
  intro N. unfold day_map. cbn [dict_get].
  repeat match goal with
  | |- context [String.eqb ?a s] =>
      destruct (String.eqb_spec a s) as [<- | _];
      [exfalso; apply N; cbn; tauto|]
  end.
  reflexivity.
Qed.

(** X7: the number [day_map] gives a day name is the position of that
    name in the select box, Monday 0 to Sunday 6; two names never share
    a number, and a name the select box does not offer is a
    [KeyError]. *)
Theorem day_map_matches_options (s : string) :
  (forall d, dict_get day_map s = Ok d
             <-> (0 <= d)%Z /\ nth_error Form.day_options (Z.to_nat d) = Some s)
  /\ (forall s' d, dict_get day_map s = Ok d -> dict_get day_map s' = Ok d ->
                   s = s')
  /\ (In s Form.day_options <-> exists d, dict_get day_map s = Ok d)
  /\ (~ In s Form.day_options <-> dict_get day_map s = Raise (KeyError s)).
Proof.
  split; [intro d; apply day_map_position|].
  split.
  { intros s' d H H'. apply day_map_position in H, H'.
    destruct H as (_ & H), H' as (_ & H'). congruence. }
  assert (A : In s Form.day_options -> exists d, dict_get day_map s = Ok d).
  { intro I. apply In_nth_error in I. destruct I as (n & I).
    exists (Z.of_nat n). apply day_map_position.
    rewrite Nat2Z.id. split; [lia | exact I]. }
  assert (B : forall d, dict_get day_map s = Ok d -> In s Form.day_options).
  { intros d H. apply day_map_position in H. destruct H as (_ & H).
    eapply nth_error_In, H. }
  split; [split; [exact A | intros (d & H); exact (B d H)]|].
  split; [apply day_map_missing|].
  intros H I. destruct (A I) as (d & E). congruence.
Qed.

(** X8: the input dictionary keeps everything the form holds: two
    forms that give the same dictionary have the same distance,
    duration, hour and day name. *)
Theorem x_input_injective (f f' : Form.t) (x : RawFeatures) :
  x_input f = Ok x -> x_input f' = Ok x ->
  Form.distance f = Form.distance f'
  /\ Form.duration f = Form.duration f'
  /\ Form.hour f = Form.hour f'
  /\ Form.day_text f = Form.day_text f'.
Proof.
  unfold x_input. intros H H'.
  destruct (dict_get day_map (Form.day_text f)) as [d | e] eqn:D;
    [|discriminate].
  destruct (dict_get day_map (Form.day_text f')) as [d' | e'] eqn:D';
    [|discriminate].
  cbn [rbind] in H, H'. rewrite <- H' in H. unfold float_of_int in H.
  injection H as Hk Hm Hh Hd.
  repeat split; try assumption.
  subst d'. apply day_map_position in D, D'.
  destruct D as (_ & D), D' as (_ & D'). congruence.
Qed.

Lemma x_input_injective_witness :
  x_input Scenario.form = Ok Scenario.trip
  /\ Form.day_text Scenario.form = "Wednesday"%string.
Proof.
  split; [reflexivity|].
  exact (proj2 (proj2 (proj2
    (x_input_injective Scenario.form Scenario.form Scenario.trip
       eq_refl eq_refl)))).
Defined.

Section WithModel.

Variable Model : Type.
Variable predict_one : Model -> RawFeatures -> result float64.

(** The dashboard tab ends normally on any two tables. *)
Lemma tab2_done (res : Resources Model) (hours : list HourRow)
  (days : list DayRow) :
  df_hour res = Frame hours -> df_day res = Frame days ->
  ending (tab2 Model res) = Done tt.
Proof.
  intros Dh Dd. unfold tab2. rewrite Dh, Dd.
  destruct hours as [| h hours]; [reflexivity|].
  destruct days as [| d days]; reflexivity.
Qed.

Lemma tab2_no_io (res : Resources Model) :
  filter is_io (events (tab2 Model res)) = [].
Proof.
  unfold tab2.
  destruct (df_hour res) as [| [| h hours]]; try reflexivity.
  destruct (df_day res) as [| [| d days]]; reflexivity.
Qed.

Lemma predict_block_no_io (res : Resources Model) (h : Z) (x : RawFeatures) :
  filter is_io (events (predict_block Model predict_one res h x)) = [].
Proof.
  unfold predict_block.
  destruct (call_predict_one Model predict_one (model res) x) as [p | e];
    [|reflexivity].
  destruct (df_hour res) as [| [| r rows]]; try reflexivity.
  cbn [lift frame_empty frame_rows sbind sret emit try_except negb].
  destruct (avg_fare_at_hour (r :: rows) h); reflexivity.
Qed.

(** The tabs, put together from the [try] block and the dashboard. *)
Lemma serve_page_tabs (res : Resources Model) (f : Form.t) :
  model res <> PyNone ->
  serve_page Model predict_one res f
  = let opening :=
      [StTabs ["Fare Calculator"; "Business Dashboard"]%string;
       StSubheader "Real-time Fare Estimator";
       StWrite "Enter trip details to estimate the taximeter cost.";
       StTripForm] in
    if Form.submitted f then
      match x_input f with
      | Raise e => (Raised e, opening)
      | Ok x =>
          match ending (predict_block Model predict_one res (Form.hour f) x) with
          | Done _ =>
              (ending (tab2 Model res),
               opening
               ++ events (predict_block Model predict_one res (Form.hour f) x)
               ++ events (tab2 Model res))
          | Raised e =>
              (Raised e,
               opening
               ++ events (predict_block Model predict_one res (Form.hour f) x))
          | Stopped =>
              (Stopped,
               opening
               ++ events (predict_block Model predict_one res (Form.hour f) x))
          end
      end
    else (ending (tab2 Model res), opening ++ events (tab2 Model res)).
Proof.
  intro N. unfold serve_page, tab1. cbv zeta.
  destruct (model res) eqn:M; [contradiction | |];
    (destruct (Form.submitted f);
     [destruct (x_input f) as [x | e]; [|reflexivity];
      cbn [lift sret sbind emit app];
      destruct (predict_block Model predict_one res (Form.hour f) x)
        as ([[] | e | ] & ptr);
      destruct (tab2 Model res) as (o2 & t2); reflexivity
     |destruct (tab2 Model res) as (o2 & t2); reflexivity]).
Qed.

(** A first run, put together from the loading and the page. *)
Lemma first_run_parts (env : Env Model) (f : Form.t) :
  first_run Model predict_one env f
  = match ending (load_resources Model env) with
    | Done res =>
        (ending (serve_page Model predict_one res f),
         events header ++ events (load_resources Model env)
         ++ events (serve_page Model predict_one res f))
    | Raised e =>
        (Raised e, events header ++ events (load_resources Model env))
    | Stopped =>
        (Stopped, events header ++ events (load_resources Model env))
    end.
Proof.
  unfold first_run, run_script, cache_resource.
  destruct (load_resources Model env) as ([res | e | ] & tr);
    cbn [fst snd ending events header sbind emit app]; try reflexivity.
  destruct (serve_page Model predict_one res f) as (o & t). reflexivity.
Qed.

Lemma load_resources_raises (env : Env Model) (e : exn) :
  pickle_load env = Raise e ->
  load_resources Model env
  = (match e with
     | FileNotFoundError => Done (mkResources PyNone FrameNone FrameNone)
     | _ => Raised e
     end, [IoOpen model_path]).
Proof.
  intro H. unfold load_resources. rewrite H. destruct e; reflexivity.
Qed.

(** How a first run ends. *)
Lemma first_run_ends (env : Env Model) (f : Form.t) :
  ending (first_run Model predict_one env f)
  = match pickle_load env with
    | Raise FileNotFoundError => Stopped
    | Raise e => Raised e
    | Ok PyNone => Stopped
    | Ok _ =>
        if Form.submitted f then
          match x_input f with
          | Ok _ => Done tt
          | Raise e => Raised e
          end
        else Done tt
    end.
Proof.
  rewrite first_run_parts.
  destruct (pickle_load env) as [o | e] eqn:L.
  - destruct (AppFacts.load_resources_loaded Model env o L)
      as (hours & days & tr & LR & _).
    rewrite LR. cbn [ending events fst snd].
    destruct o as [| m | t]; [reflexivity | |].
    all: match goal with
         | |- context [serve_page _ _ ?r _] => set (res := r)
         end.
    all: rewrite serve_page_tabs by (unfold res; cbn; discriminate).
    all: cbv zeta; rewrite (tab2_done res hours days eq_refl eq_refl).
    all: destruct (Form.submitted f); [|reflexivity].
    all: destruct (x_input f) as [x | e]; [|reflexivity].
    all: destruct (AppFacts.predict_block_done Model predict_one res
                     (Form.hour f) x) as (-> & _); reflexivity.
  - rewrite (load_resources_raises env e L). destruct e; reflexivity.
Qed.

(** X1: how a first run ends when the tables the bucket gives are
    tables of hourly and daily rows, that is, when each CSV that can be
    read has the columns the script names and a value in every cell.
    The run stops when the model file is missing or holds [None]; it is
    aborted by any other exception of opening or unpickling the file and
    by a day name missing from [day_map]; in every other case it runs to
    its end, whatever rows the tables hold and whatever [predict_one]
    does. *)
Theorem first_run_ending (env : Env Model) (f : Form.t) :
  ending (first_run Model predict_one env f)
  = match pickle_load env with
    | Raise FileNotFoundError => Stopped
    | Raise e => Raised e
    | Ok PyNone => Stopped
    | Ok _ =>
        if Form.submitted f then
          match x_input f with
          | Ok _ => Done tt
          | Raise e => Raised e
          end
        else Done tt
    end.
Proof.
  exact (first_run_ends env f).
Qed.

Lemma serve_page_no_io (res : Resources Model) (f : Form.t) :
  filter is_io (events (serve_page Model predict_one res f)) = [].
Proof.
  destruct (model res) as [| m | t] eqn:M;
    [unfold serve_page; rewrite M; reflexivity | |].
  all: rewrite serve_page_tabs by congruence; cbv zeta.
  all: pose proof (tab2_no_io res) as T.
  all: destruct (Form.submitted f);
         [destruct (x_input f) as [x | e]; [|reflexivity];
          pose proof (predict_block_no_io res (Form.hour f) x) as B;
          destruct (ending (predict_block Model predict_one res (Form.hour f) x))|].
  all: cbn [events snd]; rewrite ?filter_app, ?B, ?T; reflexivity.
Qed.

(** X2: what a first run reads.  It opens the model file once, first;
    it reads the hourly CSV only after the file was unpickled, and the
    daily CSV only after the hourly one was read; the tabs read
    nothing. *)
Theorem first_run_io (env : Env Model) (f : Form.t) :
  filter is_io (events (first_run Model predict_one env f))
  = IoOpen model_path
    :: match pickle_load env with
       | Raise _ => []
       | Ok _ =>
           IoReadCsv hour_csv
           :: match gold_stats_hour env with
              | Raise _ => []
              | Ok _ => [IoReadCsv day_csv]
              end
       end.
Proof.
  rewrite first_run_parts.
  pose proof (fun res => serve_page_no_io res f) as P.
  unfold load_resources.
  destruct (pickle_load env) as [o | e].
  - destruct (gold_stats_hour env) as [h | e];
      [destruct (gold_stats_day env) as [d | e]|];
      cbn [ending events fst snd lift sret sraise sbind emit try_except app];
      rewrite filter_app; cbn [filter is_io]; rewrite P; reflexivity.
  - destruct e; reflexivity.
Qed.

(** X3: the two tables are loaded together or not at all.  When the
    hourly CSV was read and the daily one cannot be, the hourly rows are
    dropped too: the run reports the bucket error, shows the estimate
    without any comparison and the dashboard shows its warning. *)
Theorem unreadable_day_discards_hourly (env : Env Model) (f : Form.t)
  (m : Model) (x : RawFeatures) (p : float64) (hours : list HourRow) (e : exn) :
  pickle_load env = Ok (PyModel m) ->
  gold_stats_hour env = Ok hours ->
  gold_stats_day env = Raise e ->
  Form.submitted f = true ->
  x_input f = Ok x ->
  predict_one m x = Ok p ->
  first_run Model predict_one env f
  = (Done tt,
     events header
     ++ [IoOpen model_path; IoReadCsv hour_csv; IoReadCsv day_csv;
         StError (BucketReadError e);
         StTabs ["Fare Calculator"; "Business Dashboard"]%string;
         StSubheader "Real-time Fare Estimator";
         StWrite "Enter trip details to estimate the taximeter cost.";
         StTripForm;
         StMarkdown "---"; StSuccess p;
         StSubheader "Historical Market Trends (Gold Layer)";
         StWarning GoldDataNotLoaded]).
Proof.
  intros L H D S X P.
  unfold first_run, run_script, cache_resource, load_resources.
  rewrite L, H, D.
  cbn [fst lift sret sraise sbind emit try_except app header].
  unfold serve_page, tab1, predict_block, call_predict_one.
  cbn [model df_hour]. rewrite S, X. cbn [lift sret sbind]. rewrite P.
  reflexivity.
Qed.

(** X4: an exception of opening or unpickling the model file other than
    [FileNotFoundError] is not handled: it ends the run right after the
    attempt, nothing is drawn but the page header, and nothing is kept
    in the cache, so the next run tries again. *)
Theorem load_exception_escapes (env : Env Model) (f : Form.t) (e : exn) :
  pickle_load env = Raise e ->
  e <> FileNotFoundError ->
  run_script Model predict_one None env f
  = ((Raised e, events header ++ [IoOpen model_path]), None).
Proof.
  intros L N. unfold run_script, cache_resource.
  rewrite (load_resources_raises env e L).
  destruct e; try reflexivity. contradiction.
Qed.

(** X5: a model file that unpickles to [None] is reported like a missing
    file, after the bucket has been read: the run draws what the loading
    drew, then the critical error and the warning, and stops without
    tabs and without an estimate. *)
Theorem pickled_none_is_reported_missing (env : Env Model) (f : Form.t) :
  pickle_load env = Ok PyNone ->
  first_run Model predict_one env f
  = (Stopped,
     events header ++ events (load_resources Model env)
     ++ [StError CriticalModelNotFound; StWarning PleaseUploadModel])
  /\ In (IoReadCsv hour_csv) (events (load_resources Model env))
  /\ estimates_shown (events (first_run Model predict_one env f)) = [].
Proof.
  intro L. split; [|split].
  - rewrite first_run_parts.
    destruct (AppFacts.load_resources_loaded Model env PyNone L)
      as (hours & days & tr & LR & _).
    rewrite LR. reflexivity.
  - unfold load_resources. rewrite L.
    destruct (gold_stats_hour env); [destruct (gold_stats_day env)|];
      cbn; tauto.
  - rewrite AppFacts.first_run_estimates, L. reflexivity.
Qed.

(** X6: while the form has not been submitted the run does not involve
    [predict_one]: it is the same run under any other [predict_one], and
    it shows no estimate. *)
Theorem unsubmitted_run_ignores_model (env : Env Model) (f : Form.t)
  (other_predict_one : Model -> RawFeatures -> result float64) :
  Form.submitted f = false ->
  first_run Model predict_one env f = first_run Model other_predict_one env f
  /\ estimates_shown (events (first_run Model predict_one env f)) = [].
Proof.
  intro S. split.
  - unfold first_run, run_script, cache_resource.
    destruct (load_resources Model env) as ([res | e | ] & tr);
      try reflexivity.
    cbn [fst]. unfold serve_page, tab1. rewrite S. reflexivity.
  - rewrite AppFacts.first_run_estimates. unfold estimates_from.
    rewrite S. destruct (pickle_load env) as [[| m | t] | e]; reflexivity.
Qed.

(** X9: a day name that [day_map] does not have is a [KeyError] outside
    the [try] block: with a model loaded and the form submitted the run
    is aborted after the form is drawn, before any prediction, and the
    dashboard tab is not drawn. *)
Theorem unknown_day_aborts_run (env : Env Model) (f : Form.t)
  (o : PyObj Model) :
  pickle_load env = Ok o ->
  o <> PyNone ->
  Form.submitted f = true ->
  ~ In (Form.day_text f) Form.day_options ->
  first_run Model predict_one env f
  = (Raised (KeyError (Form.day_text f)),
     events header ++ events (load_resources Model env)
     ++ [StTabs ["Fare Calculator"; "Business Dashboard"]%string;
         StSubheader "Real-time Fare Estimator";
         StWrite "Enter trip details to estimate the taximeter cost.";
         StTripForm]).
Proof.
  intros L N S D. rewrite first_run_parts.
  destruct (AppFacts.load_resources_loaded Model env o L)
    as (hours & days & tr & LR & _).
  rewrite LR. cbn [ending events fst snd].
  rewrite serve_page_tabs by exact N. cbv zeta.
  rewrite S. unfold x_input. rewrite (day_map_missing _ D). reflexivity.
Qed.

(** X10: the comparison takes the first row of the hourly table whose
    hour is the selected one, also when later rows have the same hour:
    the block draws the estimate, then the two metrics, the second with
    that row's average fare and the estimate minus that fare as its
    delta, and no error. *)
Theorem comparison_uses_first_matching_row
  (res : Resources Model) (h : Z) (x : RawFeatures) (p : float64)
  (before after : list HourRow) (r : HourRow) :
  call_predict_one Model predict_one (model res) x = Ok p ->
  df_hour res = Frame (before ++ r :: after) ->
  (forall r', In r' before -> Hour r' <> h) ->
  Hour r = h ->
  predict_block Model predict_one res h x
  = (Done tt,
     [StMarkdown "---"; StSuccess p; StColumns 2;
      StMetric "Your Estimate" (MFloat p) None;
      StMetric "Hist. Avg at this Hour" (MFloat (Fin (Avg_Fare r)))
        (Some (fsub p (Fin (Avg_Fare r))))]).
Proof.
  intros P D B E.
  assert (A : avg_fare_at_hour (before ++ r :: after) h = Ok (Avg_Fare r)).
  { unfold avg_fare_at_hour. rewrite filter_app.
    replace (filter (fun r0 => (Hour r0 =? h)%Z) before) with (@nil HourRow).
    - cbn [app filter]. rewrite (proj2 (Z.eqb_eq _ _) E). reflexivity.
    - symmetry. clear D. induction before as [| b before IH]; [reflexivity|].
      cbn [filter]. destruct (Z.eqb_spec (Hour b) h) as [Eb | _].
      + exfalso. exact (B b (or_introl eq_refl) Eb).
      + apply IH. intros r' I. apply B. right. exact I. }
  unfold predict_block. rewrite P, D.
  assert (F : frame_empty (Frame (before ++ r :: after)) = Ok false).
  { destruct before; reflexivity. }
  rewrite F. cbn [lift sret sbind emit negb frame_rows]. rewrite A.
  reflexivity.
Qed.

(** X11: an exception of [predict_one], or an unpickled object without
    that method, stays inside the [try] block: the run draws the
    prediction error in place of the estimate, goes on to draw the
    dashboard tab and ends normally. *)
Theorem model_failure_is_contained (env : Env Model) (f : Form.t)
  (o : PyObj Model) (x : RawFeatures) (e : exn) :
  pickle_load env = Ok o ->
  o <> PyNone ->
  Form.submitted f = true ->
  x_input f = Ok x ->
  call_predict_one Model predict_one o x = Raise e ->
  exists res,
    ending (load_resources Model env) = Done res
    /\ first_run Model predict_one env f
       = (Done tt,
          events header ++ events (load_resources Model env)
          ++ [StTabs ["Fare Calculator"; "Business Dashboard"]%string;
              StSubheader "Real-time Fare Estimator";
              StWrite "Enter trip details to estimate the taximeter cost.";
              StTripForm;
              StError (PredictionError e)]
          ++ events (tab2 Model res)).
Proof.
  intros L N S X P.
  destruct (AppFacts.load_resources_loaded Model env o L)
    as (hours & days & tr & LR & _).
  eexists. split; [rewrite LR; reflexivity|].
  rewrite first_run_parts, LR. cbn [ending events fst snd].
  rewrite serve_page_tabs by exact N. cbv zeta. rewrite S, X.
  unfold predict_block. cbn [model]. rewrite P.
  cbn [lift sraise sbind try_except emit ending events fst snd app].
  rewrite (tab2_done (mkResources o (Frame hours) (Frame days)) hours days
             eq_refl eq_refl).
  reflexivity.
Qed.

(** X16: a first run shows at most one estimate, and only one that
    [predict_one] of the unpickled model returned for the dictionary of
    the submitted form. *)
Theorem estimate_comes_from_model (env : Env Model) (f : Form.t) (p : float64) :
  In p (estimates_shown (events (first_run Model predict_one env f))) ->
  estimates_shown (events (first_run Model predict_one env f)) = [p]
  /\ Form.submitted f = true
  /\ exists m x,
       pickle_load env = Ok (PyModel m)
       /\ x_input f = Ok x
       /\ predict_one m x = Ok p.
Proof.
  rewrite AppFacts.first_run_estimates. unfold estimates_from.
  destruct (pickle_load env) as [[| m | t] | e]; try contradiction.
  - destruct (Form.submitted f); [|contradiction].
    destruct (x_input f) as [x | e]; [|contradiction].
    cbn [call_predict_one].
    destruct (predict_one m x) as [q | e] eqn:P; [|contradiction].
    intros [<- | []]. repeat split. exists m, x. repeat split. exact P.
  - destruct (Form.submitted f); [|contradiction].
    destruct (x_input f) as [x | e]; contradiction.
Qed.

(** X17: once [load_resources] has returned, its result stays in the
    cache: a later run of the same process reads no file, ends as the
    page ends on the resources loaded first, whatever the model file and
    the bucket have become, and leaves the cache as it was. *)
Theorem cached_resources_are_reused (env : Env Model) (f : Form.t)
  (res : Resources Model) (env1 env2 : Env Model) (f' : Form.t) :
  ending (load_resources Model env) = Done res ->
  let cache := snd (run_script Model predict_one None env f) in
  run_script Model predict_one cache env1 f'
  = run_script Model predict_one cache env2 f'
  /\ snd (run_script Model predict_one cache env1 f') = cache
  /\ filter is_io (events (fst (run_script Model predict_one cache env1 f')))
     = []
  /\ ending (fst (run_script Model predict_one cache env1 f'))
     = ending (serve_page Model predict_one res f').
Proof.
  intro L. cbv zeta. unfold run_script, cache_resource.
  destruct (load_resources Model env) as (o & tr).
  cbn [ending fst] in L. subst o. cbn [snd fst].
  split; [reflexivity|]. split; [reflexivity|].
  pose proof (serve_page_no_io res f') as P.
  cbn [header sbind emit app].
  destruct (serve_page Model predict_one res f') as (o & t).
  cbn [events ending fst snd filter is_io] in *.
  split; [|reflexivity].
  rewrite filter_app, P, app_nil_r.
  clear. induction tr as [| ev tr IH]; [reflexivity|].
  cbn [filter]. destruct (is_io ev) eqn:E; cbn [negb filter]; [exact IH|].
  rewrite E. exact IH.
Qed.

(** What the loading draws once the model file was unpickled: neither
    the tabs, nor the critical error, nor a prediction error. *)
Lemma load_resources_draws (env : Env Model) (o : PyObj Model) :
  pickle_load env = Ok o ->
  exists hours days,
    ending (load_resources Model env)
    = Done (mkResources o (Frame hours) (Frame days))
    /\ (forall labels, ~ In (StTabs labels) (events (load_resources Model env)))
    /\ ~ In (StError CriticalModelNotFound) (events (load_resources Model env))
    /\ (forall e, ~ In (StError (PredictionError e))
                       (events (load_resources Model env))).
Proof.
  intro L. unfold load_resources. rewrite L.
  destruct (gold_stats_hour env) as [h | e];
    [destruct (gold_stats_day env) as [d | e]|];
    do 2 eexists; (split; [reflexivity|]);
    repeat split; intros; cbn; intuition discriminate.
Qed.

(** The dashboard tab draws no error and no tabs. *)
Lemma tab2_draws (res : Resources Model) (hours : list HourRow)
  (days : list DayRow) :
  df_hour res = Frame hours -> df_day res = Frame days ->
  (forall msg, ~ In (StError msg) (events (tab2 Model res)))
  /\ (forall labels, ~ In (StTabs labels) (events (tab2 Model res))).
Proof.
  intros Dh Dd. unfold tab2. rewrite Dh, Dd.
  destruct hours as [| h hours];
    [split; intros; cbn; intuition discriminate|].
  destruct days as [| d days];
    split; intros; cbn; intuition discriminate.
Qed.


(** X18: the model enters a run through one call only.  Two
    [predict_one] that answer alike for the unpickled model on the
    dictionary of the submitted form give the same run, element by
    element and with the same ending. *)
Theorem run_depends_on_one_prediction (env : Env Model) (f : Form.t)
  (other_predict_one : Model -> RawFeatures -> result float64) :
  (forall m x,
      pickle_load env = Ok (PyModel m) ->
      Form.submitted f = true ->
      x_input f = Ok x ->
      other_predict_one m x = predict_one m x) ->
  first_run Model other_predict_one env f = first_run Model predict_one env f.
Proof.
  intro H. unfold first_run, run_script, cache_resource.
  destruct (pickle_load env) as [o | e] eqn:L.
  - destruct (AppFacts.load_resources_loaded Model env o L)
      as (hours & days & tr & LR & _).
    rewrite LR. cbn [fst].
    assert (SP : serve_page Model other_predict_one
                   (mkResources o (Frame hours) (Frame days)) f
                 = serve_page Model predict_one
                     (mkResources o (Frame hours) (Frame days)) f);
      [|unfold sbind at 2 4; rewrite SP; reflexivity].
    unfold serve_page, tab1, predict_block, call_predict_one. cbn [model].
    destruct o as [| m | t]; try reflexivity.
    destruct (Form.submitted f) eqn:S; [|reflexivity].
    destruct (x_input f) as [x | e] eqn:X; [|reflexivity].
    cbn [lift sret sbind]. rewrite (H m x eq_refl eq_refl eq_refl).
    reflexivity.
  - rewrite (load_resources_raises env e L). destruct e; reflexivity.
Qed.


(** C7, as the script has it: [load_resources] checks neither a version
    nor a shape.  Whatever object [pickle.load] returns becomes the
    model, without an exception; of the exceptions of opening and
    unpickling only [FileNotFoundError] is handled, any other goes
    through.  An unpickled [None] stops the run with the critical error
    and without tabs.  Any other object, model or not, gets the tabs:
    while the form is not submitted the run ends normally and draws no
    prediction error; once it is submitted an object without
    [predict_one] is reported by the [try] block as a prediction error,
    no estimate is shown and the run ends normally. *)
Theorem load_resources_accepts_any_object (env : Env Model) (f : Form.t) :
  let run := first_run Model predict_one env f in
  let tabs := StTabs ["Fare Calculator"; "Business Dashboard"]%string in
  (forall o, pickle_load env = Ok o ->
             exists res,
               ending (load_resources Model env) = Done res /\ model res = o)
  /\ (forall e, pickle_load env = Raise e ->
                ending (load_resources Model env)
                = match e with
                  | FileNotFoundError =>
                      Done (mkResources PyNone FrameNone FrameNone)
                  | _ => Raised e
                  end)
  /\ (pickle_load env = Ok PyNone ->
      ending run = Stopped
      /\ In (StError CriticalModelNotFound) (events run)
      /\ ~ In tabs (events run))
  /\ (forall o,
        pickle_load env = Ok o -> o <> PyNone ->
        In tabs (events run)
        /\ ~ In (StError CriticalModelNotFound) (events run)
        /\ (Form.submitted f = false ->
            ending run = Done tt
            /\ forall e, ~ In (StError (PredictionError e)) (events run))
        /\ (forall t x,
              o = PyOther t -> Form.submitted f = true -> x_input f = Ok x ->
              ending run = Done tt
              /\ In (StError (PredictionError (AttributeError "predict_one")))
                    (events run)
              /\ estimates_shown (events run) = [])).
Proof.
  cbv zeta. split; [|split; [|split]].
  - intros o L.
    destruct (load_resources_draws env o L) as (hours & days & LR & _).
    eexists. split; [exact LR | reflexivity].
  - intros e L. rewrite (load_resources_raises env e L).
    destruct e; reflexivity.
  - intro L.
    destruct (load_resources_draws env _ L) as (hours & days & LR & Tl & _).
    rewrite first_run_parts, LR. cbn [ending events fst snd serve_page model].
    cbn [sbind emit st_stop app].
    split; [reflexivity|]. split.
    + apply in_or_app. right. apply in_or_app. right. left. reflexivity.
    + intro I. apply in_app_or in I. destruct I as [I | I];
        [cbn in I; intuition discriminate|].
      apply in_app_or in I. destruct I as [I | I]; [exact (Tl _ I)|].
      cbn in I. intuition discriminate.
  - intros o L N.
    destruct (load_resources_draws env o L)
      as (hours & days & LR & _ & Cl & Pl).
    set (res := mkResources o (Frame hours) (Frame days)) in *.
    destruct (tab2_draws res hours days eq_refl eq_refl) as (T2e & _).
    pose proof (tab2_done res hours days eq_refl eq_refl) as T2d.
    assert (R : first_run Model predict_one env f
                = (ending (serve_page Model predict_one res f),
                   events header ++ events (load_resources Model env)
                   ++ events (serve_page Model predict_one res f))).
    { rewrite first_run_parts, LR. reflexivity. }
    rewrite serve_page_tabs in R by exact N. cbv zeta in R.
    split; [|split; [|split]].
    + rewrite R. cbn [events snd].
      apply in_or_app. right. apply in_or_app. right.
      destruct (Form.submitted f);
        [destruct (x_input f) as [x | e];
         [destruct (ending (predict_block Model predict_one res (Form.hour f) x))|]|];
        left; reflexivity.
    + rewrite R. cbn [events snd].
      intro I. apply in_app_or in I. destruct I as [I | I];
        [cbn in I; intuition discriminate|].
      apply in_app_or in I. destruct I as [I | I]; [exact (Cl I)|].
      destruct (Form.submitted f).
      * destruct (x_input f) as [x | e];
          [|cbn in I; intuition discriminate].
        destruct (AppFacts.predict_block_done Model predict_one res
                    (Form.hour f) x) as (PE & _).
        rewrite PE in I. cbn [events snd] in I.
        apply in_app_or in I. destruct I as [I | I];
          [cbn in I; intuition discriminate|].
        apply in_app_or in I. destruct I as [I | I]; [|exact (T2e _ I)].
        unfold predict_block in I.
        destruct (call_predict_one Model predict_one (model res) x);
          [|cbn in I; intuition discriminate].
        cbn [res df_hour] in I.
        destruct hours as [| r hours]; [cbn in I; intuition discriminate|].
        cbn [lift frame_empty frame_rows sbind sret emit try_except negb] in I.
        destruct (avg_fare_at_hour (r :: hours) (Form.hour f));
          cbn in I; intuition discriminate.
      * cbn [events snd] in I.
        apply in_app_or in I. destruct I as [I | I];
          [cbn in I; intuition discriminate | exact (T2e _ I)].
    + intro S. rewrite R, S. cbn [ending events fst snd].
      split; [exact T2d|].
      intros e I. apply in_app_or in I. destruct I as [I | I];
        [cbn in I; intuition discriminate|].
      apply in_app_or in I. destruct I as [I | I]; [exact (Pl e I)|].
      apply in_app_or in I. destruct I as [I | I];
        [cbn in I; intuition discriminate | exact (T2e _ I)].
    + intros t x E S X. split; [|split].
      * rewrite first_run_ends, L, S, X. subst o. reflexivity.
      * rewrite R, S, X. subst o.
        unfold predict_block. cbn [res model call_predict_one].
        cbn [lift sraise sbind try_except emit ending events fst snd app].
        apply in_or_app. right. apply in_or_app. right.
        do 4 right. left. reflexivity.
      * rewrite AppFacts.first_run_estimates, L. unfold estimates_from.
        subst o. rewrite S, X. reflexivity.
Qed.

End WithModel.

(** The row [top_by] ends on is one of the rows and no row is above it,
    for any total and transitive order. *)
Lemma top_by_is_max {Row : Type} (le : Row -> Row -> bool)
  (total : forall a b, le a b = true \/ le b a = true)
  (trans : forall a b c, le a b = true -> le b c = true -> le a c = true)
  (rows : list Row) :
  forall best,
    In (top_by le best rows) (best :: rows)
    /\ forall r, In r (best :: rows) -> le r (top_by le best rows) = true.
Proof.
  induction rows as [| r rows IH]; intro best; cbn [top_by].
  - split; [left; reflexivity|].
    intros r [<- | []]. destruct (total best best); assumption.
  - destruct (le r best) eqn:E.
    + destruct (IH best) as (I & M). split.
      * destruct I as [I | I]; [left; exact I | right; right; exact I].
      * intros r' [<- | [<- | I']].
        -- apply M. left. reflexivity.
        -- apply (trans _ best); [exact E | apply M; left; reflexivity].
        -- apply M. right. exact I'.
    + assert (E' : le best r = true).
      { destruct (total best r) as [T | T]; [exact T | congruence]. }
      destruct (IH r) as (I & M). split.
      * right. exact I.
      * intros r' [<- | [<- | I']].
        -- apply (trans _ r); [exact E' | apply M; left; reflexivity].
        -- apply M. left. reflexivity.
        -- apply M. right. exact I'.
Qed.

Lemma most_expensive_row (first : HourRow) (rest : list HourRow) :
  exists r,
    In r (first :: rest)
    /\ most_expensive_hour (first :: rest) = Ok (Hour r)
    /\ forall r', In r' (first :: rest) -> Avg_Fare r' <= Avg_Fare r.
Proof.
  set (le := fun a b : HourRow => Qle_bool (Avg_Fare a) (Avg_Fare b)).
  destruct (top_by_is_max le) with (rows := rest) (best := first) as (I & M).
  - intros a b. unfold le. rewrite !Qle_bool_iff.
    destruct (Qlt_le_dec (Avg_Fare b) (Avg_Fare a)) as [L | L];
      [right; apply Qlt_le_weak, L | left; exact L].
  - intros a b c. unfold le. rewrite !Qle_bool_iff. apply Qle_trans.
  - exists (top_by le first rest). split; [exact I|]. split; [reflexivity|].
    intros r' I'. apply Qle_bool_iff. exact (M r' I').
Qed.

(** X13: the most expensive hour is the hour of a row of the table whose
    average fare no other row exceeds; on a table without rows the
    lookup is an [IndexError]. *)
Theorem most_expensive_hour_is_maximal (rows : list HourRow) :
  match rows with
  | [] => most_expensive_hour rows = Raise IndexError
  | _ :: _ =>
      exists r,
        In r rows
        /\ most_expensive_hour rows = Ok (Hour r)
        /\ forall r', In r' rows -> Avg_Fare r' <= Avg_Fare r
  end.
Proof.
  destruct rows as [| first rest]; [reflexivity|].
  apply most_expensive_row.
Qed.

(** X14: the busiest day is the day of a row of the table whose trip
    count no other row exceeds; on a table without rows the lookup is an
    [IndexError]. *)
Theorem busiest_day_is_maximal (rows : list DayRow) :
  match rows with
  | [] => busiest_day rows = Raise IndexError
  | _ :: _ =>
      exists r,
        In r rows
        /\ busiest_day rows = Ok (Day r)
        /\ forall r', In r' rows -> (Total_Trips r' <= Total_Trips r)%Z
  end.
Proof.
  destruct rows as [| first rest]; [reflexivity|].
  set (le := fun a b : DayRow => (Total_Trips a <=? Total_Trips b)%Z).
  destruct (top_by_is_max le) with (rows := rest) (best := first) as (I & M).
  - intros a b. unfold le. rewrite !Z.leb_le. lia.
  - intros a b c. unfold le. rewrite !Z.leb_le. lia.
  - exists (top_by le first rest). split; [exact I|]. split; [reflexivity|].
    intros r' I'. apply Z.leb_le. exact (M r' I').
Qed.

(** X12: the dashboard tab on two tables of hourly and daily rows (the
    columns the script names, a value in every cell).  It ends normally;
    it draws its warning exactly when one of the tables has no rows;
    otherwise it draws three metrics, the second with the most expensive
    hour and the third with the busiest day, a line chart with one point
    for every hourly row and a bar chart with one bar for every daily
    row, in the order of the rows. *)
Theorem dashboard_or_warning (Model : Type) (res : Resources Model)
  (hours : list HourRow) (days : list DayRow) :
  df_hour res = Frame hours ->
  df_day res = Frame days ->
  ending (tab2 Model res) = Done tt
  /\ (In (StWarning GoldDataNotLoaded) (events (tab2 Model res))
      <-> hours = [] \/ days = [])
  /\ (hours <> [] -> days <> [] ->
      exists avg top_hour top_day,
        most_expensive_hour hours = Ok top_hour
        /\ busiest_day days = Ok top_day
        /\ filter is_metric (events (tab2 Model res))
           = [StMetric "Global Avg Fare" (MFloat avg) None;
              StMetric "Most Expensive Hour" (MInt top_hour) None;
              StMetric "Busiest Day" (MText top_day) None]
        /\ In (StLineChart (map (fun r => (Hour r, Avg_Fare r)) hours))
              (events (tab2 Model res))
        /\ In (StBarChart (map (fun r => (Day r, Total_Trips r)) days))
              (events (tab2 Model res))).
Proof.
  intros Dh Dd. unfold tab2. rewrite Dh, Dd.
  destruct hours as [| h hours].
  { split; [reflexivity|]. split; [|intros N; contradiction].
    split; [intros _; left; reflexivity|].
    intros _. right. left. reflexivity. }
  destruct days as [| d days].
  { split; [reflexivity|]. split; [|intros _ N; contradiction].
    split; [intros _; right; reflexivity|].
    intros _. right. left. reflexivity. }
  split; [reflexivity|]. split.
  - split.
    + intro I. cbn in I. exfalso.
      repeat (destruct I as [I | I]; [discriminate|]). exact I.
    + intros [E | E]; discriminate.
  - intros _ _. eexists. eexists. eexists.
    split; [reflexivity|]. split; [reflexivity|].
    split; [reflexivity|]. split.
    + cbn. do 9 right. left. reflexivity.
    + cbn. do 12 right. left. reflexivity.
Qed.

Lemma unreadable_day_discards_hourly_witness :
  first_run _ Scenario.Predict Scenario.env_day_unreadable Scenario.form
  = (Done tt,
     events header
     ++ [IoOpen model_path; IoReadCsv hour_csv; IoReadCsv day_csv;
         StError (BucketReadError (OtherError "daily file not found in bucket"));
         StTabs ["Fare Calculator"; "Business Dashboard"]%string;
         StSubheader "Real-time Fare Estimator";
         StWrite "Enter trip details to estimate the taximeter cost.";
         StTripForm;
         StMarkdown "---"; StSuccess (Fin 0);
         StSubheader "Historical Market Trends (Gold Layer)";
         StWarning GoldDataNotLoaded]).
Proof.
  exact (unreadable_day_discards_hourly _ Scenario.Predict
           Scenario.env_day_unreadable Scenario.form Core.fresh Scenario.trip
           (Fin 0) Scenario.hours_with_14 _
           eq_refl eq_refl eq_refl eq_refl eq_refl eq_refl).
Defined.

Lemma load_exception_escapes_witness :
  pickle_load Scenario.env_unpickle_fails
  = Raise (OtherError "unpickling stack underflow")
  /\ run_script _ Scenario.Predict None Scenario.env_unpickle_fails Scenario.form
     = ((Raised (OtherError "unpickling stack underflow"),
         events header ++ [IoOpen model_path]), None).
Proof.
  split; [reflexivity|].
  apply (load_exception_escapes _ Scenario.Predict Scenario.env_unpickle_fails
           Scenario.form _ eq_refl).
  discriminate.
Defined.

Lemma pickled_none_is_reported_missing_witness :
  pickle_load Scenario.env_pickled_none = Ok PyNone
  /\ ending (first_run _ Scenario.Predict Scenario.env_pickled_none Scenario.form)
     = Stopped
  /\ In (IoReadCsv hour_csv)
        (events (load_resources _ Scenario.env_pickled_none)).
Proof.
  split; [reflexivity|].
  destruct (pickled_none_is_reported_missing _ Scenario.Predict
              Scenario.env_pickled_none Scenario.form eq_refl) as (R & I & _).
  split; [rewrite R; reflexivity | exact I].
Defined.

Lemma unsubmitted_run_ignores_model_witness :
  Form.submitted Scenario.form_not_submitted = false
  /\ first_run _ Scenario.Predict Scenario.env_with_14
       Scenario.form_not_submitted
     = first_run _ Scenario.failing_predict Scenario.env_with_14
         Scenario.form_not_submitted.
Proof.
  split; [reflexivity|].
  exact (proj1 (unsubmitted_run_ignores_model _ Scenario.Predict
                  Scenario.env_with_14 Scenario.form_not_submitted
                  Scenario.failing_predict eq_refl)).
Defined.

Lemma unknown_day_aborts_run_witness :
  ~ In (Form.day_text Scenario.form_unknown_day) Form.day_options
  /\ ending (first_run _ Scenario.Predict Scenario.env_with_14
               Scenario.form_unknown_day)
     = Raised (KeyError "Miercoles").
Proof.
  assert (N : ~ In (Form.day_text Scenario.form_unknown_day) Form.day_options).
  { cbn. intuition discriminate. }
  split; [exact N|].
  rewrite (unknown_day_aborts_run _ Scenario.Predict Scenario.env_with_14
             Scenario.form_unknown_day (PyModel Core.fresh) eq_refl
             ltac:(discriminate) eq_refl N).
  reflexivity.
Defined.

Lemma comparison_uses_first_matching_row_witness :
  predict_block _ Scenario.Predict
    (mkResources (PyModel Core.fresh) (Frame Scenario.hours_with_14)
       (Frame Scenario.days)) 14 Scenario.trip
  = (Done tt,
     [StMarkdown "---"; StSuccess (Fin 0); StColumns 2;
      StMetric "Your Estimate" (MFloat (Fin 0)) None;
      StMetric "Hist. Avg at this Hour" (MFloat (Fin (27 # 2)))
        (Some (fsub (Fin 0) (Fin (27 # 2))))]).
Proof.
  apply (comparison_uses_first_matching_row _ Scenario.Predict
           (mkResources (PyModel Core.fresh) (Frame Scenario.hours_with_14)
              (Frame Scenario.days))
           14 Scenario.trip (Fin 0)
           [mkHourRow 13 (21 # 2)] [mkHourRow 14 (31 # 2); mkHourRow 15 (23 # 2)]
           (mkHourRow 14 (27 # 2))).
  - reflexivity.
  - reflexivity.
  - intros r' [<- | []]. discriminate.
  - reflexivity.
Defined.

Lemma model_failure_is_contained_witness :
  call_predict_one _ Scenario.failing_predict (PyModel Core.fresh) Scenario.trip
  = Raise (OtherError "model is broken")
  /\ exists res,
       ending (load_resources _ Scenario.env_with_14) = Done res
       /\ first_run _ Scenario.failing_predict Scenario.env_with_14 Scenario.form
          = (Done tt,
             events header ++ events (load_resources _ Scenario.env_with_14)
             ++ [StTabs ["Fare Calculator"; "Business Dashboard"]%string;
                 StSubheader "Real-time Fare Estimator";
                 StWrite "Enter trip details to estimate the taximeter cost.";
                 StTripForm;
                 StError (PredictionError (OtherError "model is broken"))]
             ++ events (tab2 _ res)).
Proof.
  split; [reflexivity|].
  apply (model_failure_is_contained _ Scenario.failing_predict
           Scenario.env_with_14 Scenario.form (PyModel Core.fresh)
           Scenario.trip _ eq_refl ltac:(discriminate) eq_refl eq_refl eq_refl).
Defined.

Lemma estimate_comes_from_model_witness :
  In (Fin 0)
     (estimates_shown
        (events (first_run _ Scenario.Predict Scenario.env_with_14 Scenario.form)))
  /\ exists m x,
       pickle_load Scenario.env_with_14 = Ok (PyModel m)
       /\ x_input Scenario.form = Ok x
       /\ Scenario.Predict m x = Ok (Fin 0).
Proof.
  assert (I : In (Fin 0)
                (estimates_shown
                   (events (first_run _ Scenario.Predict Scenario.env_with_14
                              Scenario.form)))).
  { left. reflexivity. }
  split; [exact I|].
  exact (proj2 (proj2 (estimate_comes_from_model _ Scenario.Predict
                         Scenario.env_with_14 Scenario.form (Fin 0) I))).
Defined.

Lemma cached_resources_are_reused_witness :
  let cache := snd (run_script _ Scenario.Predict None Scenario.env_with_14
                      Scenario.form) in
  run_script _ Scenario.Predict cache Scenario.env_no_model Scenario.form
  = run_script _ Scenario.Predict cache Scenario.env_no_bucket Scenario.form
  /\ filter is_io
       (events (fst (run_script _ Scenario.Predict cache Scenario.env_no_model
                       Scenario.form)))
     = [].
Proof.
  destruct (cached_resources_are_reused _ Scenario.Predict
              Scenario.env_with_14 Scenario.form
              (mkResources (PyModel Core.fresh) (Frame Scenario.hours_with_14)
                 (Frame Scenario.days))
              Scenario.env_no_model Scenario.env_no_bucket Scenario.form
              eq_refl) as (A & _ & B & _).
  split; [exact A | exact B].
Defined.

Lemma dashboard_or_warning_witness :
  let res := mkResources (PyModel Core.fresh) (Frame Scenario.hours_with_14)
               (Frame Scenario.days) in
  ending (tab2 _ res) = Done tt
  /\ (In (StWarning GoldDataNotLoaded) (events (tab2 _ res))
      <-> Scenario.hours_with_14 = [] \/ Scenario.days = []).
Proof.
  cbv zeta.
  destruct (dashboard_or_warning _
              (mkResources (PyModel Core.fresh) (Frame Scenario.hours_with_14)
                 (Frame Scenario.days))
              Scenario.hours_with_14 Scenario.days eq_refl eq_refl)
    as (A & B & _).
  split; [exact A | exact B].
Defined.



Lemma load_resources_accepts_any_object_witness :
  pickle_load Scenario.env_wrong_pickle = Ok (PyOther "dict")
  /\ ending (first_run _ Scenario.Predict Scenario.env_wrong_pickle Scenario.form)
     = Done tt
  /\ In (StError (PredictionError (AttributeError "predict_one")))
        (events (first_run _ Scenario.Predict Scenario.env_wrong_pickle
                   Scenario.form))
  /\ estimates_shown
       (events (first_run _ Scenario.Predict Scenario.env_wrong_pickle
                  Scenario.form))
     = [].
Proof.
  split; [reflexivity|].
  destruct (load_resources_accepts_any_object _ Scenario.Predict
              Scenario.env_wrong_pickle Scenario.form) as (_ & _ & _ & A).
  destruct (A (PyOther "dict") eq_refl ltac:(discriminate)) as (_ & _ & _ & B).
  exact (B "dict"%string Scenario.trip eq_refl eq_refl eq_refl).
Defined.

Lemma run_depends_on_one_prediction_witness :
  Scenario.zero_predict Core.fresh Scenario.trip
  = Scenario.Predict Core.fresh Scenario.trip
  /\ first_run _ Scenario.zero_predict Scenario.env_with_14 Scenario.form
     = first_run _ Scenario.Predict Scenario.env_with_14 Scenario.form.
Proof.
  split; [reflexivity|].
  apply (run_depends_on_one_prediction _ Scenario.Predict
           Scenario.env_with_14 Scenario.form Scenario.zero_predict).
  intros m x L _ X.
  injection L as <-. injection X as <-. reflexivity.
Defined.

End ScriptFacts.
